(** * Job scraper pipeline: extraction, deduplication and sinks

    A shallow embedding of [scraper.py] (class [JobsScraper]) and
    [linkedin.py] (function [scrape_linkedin_jobs]).

    Python values are an inductive type, dictionaries are [gmap]s with
    string keys, a raised exception is the [Raise] branch of [result], and
    the external collaborators (HTTP, the browser, the file system, the
    remote table) are oracles that the run receives. The definitions come
    first, module by module; the properties follow. *)

From Stdlib Require Import ZArith String Ascii.
From stdpp Require Import base option list gmap strings pretty.

Set Warnings "-register-all".
Local Open Scope string_scope.
Local Open Scope list_scope.
Local Open Scope nat_scope.

(** ** Python values and exceptions *)

Module Py.

(** The exception classes the code can meet; [OtherError] stands for any
    exception raised by an external library (requests, selenium, supabase,
    the file system). All of them derive from [Exception]. *)
Inductive exn : Type :=
| AttributeError
| TypeError
| ValueError
| KeyError
| OSError
| OtherError (msg : string).

Inductive result (A : Type) : Type :=
| Ok (a : A)
| Raise (e : exn).
Arguments Ok {A} a.
Arguments Raise {A} e.

#[global] Instance result_ret : MRet result := fun A a => Ok a.
#[global] Instance result_bind : MBind result := fun A B f m =>
  match m with
  | Ok a => f a
  | Raise e => Raise e
  end.

#[global] Instance result_fmap : FMap result := fun A B f m =>
  match m with
  | Ok a => Ok (f a)
  | Raise e => Raise e
  end.

(** [try: body / except Exception: handler] *)
Definition try_except {A : Type} (body : result A) (handler : exn → A) : A :=
  match body with
  | Ok a => a
  | Raise e => handler e
  end.

(** JSON-shaped values: what [response.json()] can hold. A float is kept as
    its IEEE-754 bit pattern, of which only the truth value is looked at. *)
Inductive pyval : Type :=
| PyNone
| PyBool (b : bool)
| PyInt (n : Z)
| PyFloat (bits : Z)
| PyStr (s : string)
| PyList (l : list pyval)
| PyDict (d : gmap string pyval).

(** [bool(v)] *)
Definition truthy (v : pyval) : bool :=
  match v with
  | PyNone => false
  | PyBool b => b
  | PyInt n => negb (n =? 0)%Z
  | PyFloat bits => negb (Z.land bits (2 ^ 63 - 1) =? 0)%Z
  | PyStr s => negb (String.eqb s "")
  | PyList l => negb (Nat.eqb (length l) 0)
  | PyDict d => negb (Nat.eqb (size d) 0)
  end.

(** [a or b] *)
Definition py_or (a b : pyval) : pyval := if truthy a then a else b.

(** [obj.get(key, default)]: only a dict has the method. *)
Definition py_get (obj : pyval) (key : string) (dflt : pyval) : result pyval :=
  match obj with
  | PyDict d => Ok (default dflt (d !! key))
  | _ => Raise AttributeError
  end.

(** Is [c] a character of [s]: the test ["<" in s] on a string. *)
Fixpoint str_contains (c : ascii) (s : string) : bool :=
  match s with
  | EmptyString => false
  | String c' s' => if Ascii.eqb c c' then true else str_contains c s'
  end.

Definition is_str (s : string) (v : pyval) : bool :=
  match v with
  | PyStr s' => String.eqb s s'
  | _ => false
  end.

(** ["<" in v] *)
Definition contains_lt (v : pyval) : result bool :=
  match v with
  | PyStr s => Ok (str_contains "<"%char s)
  | PyList l => Ok (existsb (is_str "<") l)
  | PyDict d => Ok (bool_decide (is_Some (d !! "<")))
  | _ => Raise TypeError
  end.

(** [len(v)] *)
Definition py_len (v : pyval) : result nat :=
  match v with
  | PyStr s => Ok (String.length s)
  | PyList l => Ok (length l)
  | PyDict d => Ok (size d)
  | _ => Raise TypeError
  end.

Fixpoint str_chars (s : string) : list pyval :=
  match s with
  | EmptyString => []
  | String c s' => PyStr (String c EmptyString) :: str_chars s'
  end.

(** [for x in v]: the items of a list, the characters of a string, the keys
    of a dict (in an order the model does not fix); anything else is not
    iterable. *)
Definition py_iter (v : pyval) : result (list pyval) :=
  match v with
  | PyList l => Ok l
  | PyStr s => Ok (str_chars s)
  | PyDict d => Ok ((λ kv, PyStr kv.1) <$> map_to_list d)
  | _ => Raise TypeError
  end.

(** [range(0, stop, step)] *)
Definition py_range0 (stop step : nat) : result (list nat) :=
  match step with
  | O => Raise ValueError
  | S _ => Ok ((λ k, k * step) <$> seq 0 ((stop + step - 1) / step))
  end.

(** [l[i:j]] for [0 <= i <= j] *)
Definition py_slice {A : Type} (l : list A) (i j : nat) : list A :=
  take (j - i) (drop i l).

(** What the code uses and Python provides from outside the two files. *)
Class Runtime : Type := {
  (** [s.lower()], Unicode case mapping *)
  str_lower : string → string;
  (** [s.strip()] *)
  str_strip : string → string;
  (** [str(v)] for a float, a list or a dict *)
  str_other : pyval → string;
  (** [BeautifulSoup(v, 'html.parser').get_text(strip=True)] *)
  soup_get_text : pyval → result string;
  (** the exception of [d[:150]] on a dict: [TypeError] (a slice cannot be
      hashed) before Python 3.12, [KeyError] from 3.12 on *)
  dict_slice_error : exn;
}.

Section WithRuntime.
Context {RT : Runtime}.

(** [v.lower()]: only a string has the method. *)
Definition py_lower (v : pyval) : result string :=
  match v with
  | PyStr s => Ok (str_lower s)
  | _ => Raise AttributeError
  end.

(** [str(v)], the text an f-string puts for [{v}] *)
Definition py_str (v : pyval) : string :=
  match v with
  | PyStr s => s
  | PyNone => "None"
  | PyBool true => "True"
  | PyBool false => "False"
  | PyInt n => pretty n
  | _ => str_other v
  end.

End WithRuntime.

(** An ASCII runtime to run the definitions on examples. *)
Definition ascii_lower (c : ascii) : ascii :=
  let n := nat_of_ascii c in
  if Nat.leb 65 n && Nat.leb n 90 then ascii_of_nat (n + 32) else c.

Fixpoint ascii_str_lower (s : string) : string :=
  match s with
  | EmptyString => EmptyString
  | String c s' => String (ascii_lower c) (ascii_str_lower s')
  end.

Definition ascii_runtime : Runtime := {|
  str_lower := ascii_str_lower;
  str_strip := id;
  str_other := λ _, "<object>";
  soup_get_text := λ _, Raise (OtherError "no parser");
  dict_slice_error := TypeError;
|}.

End Py.
Import Py.

(** A normalized listing is a Python dict. *)
Abbreviation listing := (gmap string pyval).

(** ** The world outside the two programs *)

Module World.

(** An HTTP response: [status_code] and what [response.json()] gives. *)
Record response : Type := {
  status_code : Z;
  json : result pyval;
}.

(** One [li] of the LinkedIn result list as the browser driver answers for
    it: each lookup either raises or yields its value. [get_attribute]
    yields a string or [None], [text] a string. *)
Record card : Type := {
  logo_src : result pyval;
  title_text : result string;
  company_text : result string;
  location_text : result string;
  link_href : result pyval;
}.

Record job_item : Type := {
  item_card : result card;
}.

(** The lines the programs print that report an outcome; banners and
    progress lines are left out. *)
Inductive notice : Type :=
| NoSupabaseWarning
| SupabaseReady
| SavedTo (filename : string) (total : nat)
| SaveError (e : exn)
| BatchInserted (number count : nat)
| BatchFailed (number : nat) (e : exn)
| TotalInserted (n : nat)
| TotalFailed (n : nat)
| InsertError (e : exn)
| InsertSkipped
| ScrapeError (e : exn).

(** How a write that does not go through fails: [open] raises and the file
    is as it was, or [open] has emptied the file and [json.dump] (or closing
    the file) raises, which leaves the file cut short. *)
Inductive write_failure : Type :=
| AtOpen (e : exn)
| AfterOpen (e : exn).

(** The external collaborators. *)
Class Outside : Type := {
  (** the state of the remote table store *)
  remote_state : Type;
  client : Type;
  (** [create_client(url, key)] *)
  create_client : string → string → result client;
  (** [supabase.table("internships").insert(batch).execute()] *)
  table_insert : client → remote_state → list listing → remote_state * result unit;
  (** [requests.get(url, headers=..., params=...)] *)
  http_get : string → list (string * string) → list (string * string) → result response;
  (** can [open(filename, 'w')] and the [json.dump] that follows go through
      (a run writes each of its files once) *)
  fs_writable : string → bool;
  (** and how they fail when they cannot *)
  fs_failure : string → write_failure;
  (** [datetime.now().isoformat()] *)
  now_isoformat : string;
  (** lines 51-78 of linkedin.py: start the driver, load the page, find the
      [li] elements *)
  browse : string → result (list job_item);
  (** [driver.quit()] *)
  driver_quit : result unit;
}.

Section WithOutside.
Context {OUT : Outside}.

(** [files] are the files that hold a whole JSON document, [torn] the ones
    a failed write has left cut short. *)
Record world : Type := {
  files : gmap string pyval;
  torn : gset string;
  remote : remote_state;
  console : list notice;
}.

Definition say (n : notice) (w : world) : world :=
  {| files := files w; torn := torn w; remote := remote w;
     console := console w ++ [n] |}.

Definition set_remote (r : remote_state) (w : world) : world :=
  {| files := files w; torn := torn w; remote := r; console := console w |}.

Definition write_file (filename : string) (doc : pyval) (w : world) : world :=
  {| files := <[filename := doc]> (files w); torn := torn w ∖ {[filename]};
     remote := remote w; console := console w |}.

(** [open(filename, 'w')] has emptied the file and the write stopped short:
    what the file held is gone. *)
Definition tear_file (filename : string) (w : world) : world :=
  {| files := delete filename (files w); torn := {[filename]} ∪ torn w;
     remote := remote w; console := console w |}.

(** A computation that changes the world and returns or raises; what it did
    to the world before raising stays done. *)
Definition io (A : Type) : Type := world → world * result A.

#[global] Instance io_ret : MRet io := λ A a w, (w, Ok a).
#[global] Instance io_bind : MBind io := λ A B f m w,
  match m w with
  | (w', Ok a) => f a w'
  | (w', Raise e) => (w', Raise e)
  end.

Definition lift {A : Type} (r : result A) : io A := λ w, (w, r).

Definition act (f : world → world) : io unit := λ w, (f w, Ok ()).

(** [try: body / except Exception as e: handler] around a computation *)
Definition try_io {A : Type} (body : io A) (handler : exn → io A) : io A := λ w,
  match body w with
  | (w', Ok a) => (w', Ok a)
  | (w', Raise e) => handler e w'
  end.

(** [with open(filename, 'w') as f: json.dump(doc, f, ...)] *)
Definition dump_json (filename : string) (doc : pyval) : io unit := λ w,
  if fs_writable filename then (write_file filename doc w, Ok ())
  else match fs_failure filename with
       | AtOpen e => (w, Raise e)
       | AfterOpen e => (tear_file filename w, Raise e)
       end.

(** [os.getenv(name)] and [not value] on what it returns *)
Definition getenv (environ : gmap string string) (name : string) : option string :=
  environ !! name.

Definition unset (value : option string) : bool :=
  match value with
  | Some s => String.eqb s ""
  | None => true
  end.

(** ** The batched insert, the same loop in both files

    [for i in range(0, len(jobs), batch_size)] with the two counters. *)
Record tally : Type := {
  total_inserted : nat;
  total_failed : nat;
}.

Definition insert_step (c : client) (batch_size : nat) (jobs : list listing)
    (st : world * tally) (i : nat) : world * tally :=
  let batch := py_slice jobs i (i + batch_size) in
  match table_insert c (remote st.1) batch with
  | (r, Ok _) =>
      (say (BatchInserted (i / batch_size + 1) (length batch)) (set_remote r st.1),
       {| total_inserted := total_inserted st.2 + length batch;
          total_failed := total_failed st.2 |})
  | (r, Raise e) =>
      (say (BatchFailed (i / batch_size + 1) e) (set_remote r st.1),
       {| total_inserted := total_inserted st.2;
          total_failed := total_failed st.2 + length batch |})
  end.

Definition insert_batches (c : client) (batch_size : nat) (jobs : list listing)
    (w : world) : result (world * tally) :=
  starts ← py_range0 (length jobs) batch_size;
  mret (foldl (insert_step c batch_size jobs)
          (w, {| total_inserted := 0; total_failed := 0 |}) starts).

Definition report (t : tally) (w : world) : world :=
  let w := say (TotalInserted (total_inserted t)) w in
  if Nat.ltb 0 (total_failed t) then say (TotalFailed (total_failed t)) w else w.

Definition insert_with (batch_size : nat) (c : client) (jobs : list listing)
    (w : world) : world :=
  match insert_batches c batch_size jobs w with
  | Ok (w', t) => report t w'
  | Raise e => say (InsertError e) w
  end.

End WithOutside.
End World.
Import World.

(** ** scraper.py *)

Module Scraper.
Section WithRuntime.
Context {RT : Runtime} {OUT : Outside}.

(** *** Field extraction *)

(** [if description and "<" in description: description = soup.get_text(...)] *)
Definition clean_description (description : pyval) : result pyval :=
  if truthy description then
    markup ← contains_lt description;
    if markup : bool then text ← soup_get_text description; mret (PyStr text)
    else mret description
  else mret description.

(** Lines 197-205. *)
Definition jsearch_location (job_data : pyval) : result pyval :=
  city ← py_get job_data "job_city" PyNone;
  country ← py_get job_data "job_country" PyNone;
  if truthy city && truthy country
  then mret (PyStr (py_str city +:+ ", " +:+ py_str country))
  else if truthy city then mret city
  else if truthy country then mret country
  else py_get job_data "job_location" PyNone.

Definition make_listing (logo title description company location url : pyval) : listing :=
  <["logo" := logo]> (<["title" := title]> (<["description" := description]>
    (<["company" := company]> (<["location" := location]> (<["url" := url]> ∅))))).

(** The body of the [try] of [_parse_jsearch_job]. *)
Definition parse_jsearch_body (job_data : pyval) : result listing :=
  logo ← py_get job_data "employer_logo" PyNone;
  title ← py_get job_data "job_title" PyNone;
  description ← py_get job_data "job_description" PyNone;
  description ← clean_description description;
  company ← py_get job_data "employer_name" PyNone;
  location ← jsearch_location job_data;
  apply_link ← py_get job_data "job_apply_link" PyNone;
  google_link ← py_get job_data "job_google_link" PyNone;
  mret (make_listing logo title description company location
          (py_or apply_link google_link)).

(** [None] is Python's [None], returned by the [except] branch. *)
Definition parse_jsearch_job (job_data : pyval) : option listing :=
  try_except (Some <$> parse_jsearch_body job_data) (λ _, None).

(** The body of the [try] of [_parse_active_jobs_db_job]. *)
Definition parse_active_jobs_db_body (job_data : pyval) : result listing :=
  description ← py_get job_data "description" PyNone;
  description ← clean_description description;
  logo ← py_get job_data "logo" PyNone;
  company_logo ← py_get job_data "company_logo" PyNone;
  title ← py_get job_data "title" PyNone;
  job_title ← py_get job_data "job_title" PyNone;
  name ← py_get job_data "name" PyNone;
  company ← py_get job_data "company" PyNone;
  company_name ← py_get job_data "company_name" PyNone;
  employer ← py_get job_data "employer" PyNone;
  location ← py_get job_data "location" PyNone;
  city ← py_get job_data "city" PyNone;
  url ← py_get job_data "url" PyNone;
  link ← py_get job_data "link" PyNone;
  job_url ← py_get job_data "job_url" PyNone;
  mret (make_listing (py_or logo company_logo)
          (py_or (py_or title job_title) name)
          description
          (py_or (py_or company company_name) employer)
          (py_or location city)
          (py_or (py_or url link) job_url)).

Definition parse_active_jobs_db_job (job_data : pyval) : option listing :=
  try_except (Some <$> parse_active_jobs_db_body job_data) (λ _, None).

(** [structured_job = parse(job); if structured_job: jobs.append(structured_job)] *)
Definition append_parsed (parse : pyval → option listing)
    (jobs : list listing) (job : pyval) : list listing :=
  match parse job with
  | Some structured_job =>
      if truthy (PyDict structured_job) then jobs ++ [structured_job] else jobs
  | None => jobs
  end.

(** [for job in api_jobs: ...] *)
Definition collect (parse : pyval → option listing)
    (jobs : list listing) (api_jobs : list pyval) : list listing :=
  foldl (append_parsed parse) jobs api_jobs.

(** *** Fetching *)

Record scraper : Type := {
  api_key : string;
  supabase : client;
}.

Definition jsearch_url : string := "https://jsearch.p.rapidapi.com/search".
Definition jsearch_host : string := "jsearch.p.rapidapi.com".
Definition active_jobs_db_url : string :=
  "https://active-jobs-db.p.rapidapi.com/modified-ats-24h".
Definition active_jobs_db_host : string := "active-jobs-db.p.rapidapi.com".

Definition jsearch_queries : list string :=
  ["data internships"; "data scientist internships";
   "software engineering internships"; "data engineering internships"].

(** One turn of the loop of [_fetch_jsearch_jobs]: the [try] and its
    [except], which leaves [jobs] as it is. *)
Definition fetch_jsearch_query (self : scraper) (jobs : list listing)
    (query : string) : list listing :=
  try_except
    (response ← http_get jsearch_url
        [("x-rapidapi-host", jsearch_host); ("x-rapidapi-key", api_key self)]
        [("query", query); ("page", "1"); ("num_pages", "1"); ("date_posted", "all")];
     if (status_code response =? 200)%Z then
       data ← json response;
       api_jobs ← py_get data "data" (PyList []);
       items ← py_iter api_jobs;
       mret (collect parse_jsearch_job jobs items)
     else mret jobs)
    (λ _, jobs).

Definition fetch_jsearch_jobs (self : scraper) : list listing :=
  foldl (fetch_jsearch_query self) [] jsearch_queries.

Definition fetch_active_jobs_db (self : scraper) : list listing :=
  try_except
    (response ← http_get active_jobs_db_url
        [("x-rapidapi-host", active_jobs_db_host); ("x-rapidapi-key", api_key self)]
        [("limit", "500"); ("offset", "0"); ("description_type", "text")];
     if (status_code response =? 200)%Z then
       data ← json response;
       by_data ← py_get data "data" (PyList []);
       by_jobs ← py_get data "jobs" (PyList []);
       items ← py_iter (py_or (py_or by_data by_jobs) (PyList []));
       mret (collect parse_active_jobs_db_job [] items)
     else mret [])
    (λ _, []).

(** *** Deduplication *)

(** The key of [_remove_duplicates]:
    [f"{job.get('title', '').lower()}_{job.get('company', '').lower()}"] *)
Definition dedup_key (job : listing) : result string :=
  t ← py_lower (default (PyStr "") (job !! "title"));
  c ← py_lower (default (PyStr "") (job !! "company"));
  mret (t +:+ "_" +:+ c).

(** The loop of [_remove_duplicates], with its two accumulators. *)
Fixpoint dedup_loop (jobs : list listing) (seen : gset string)
    (unique_jobs : list listing) : result (list listing) :=
  match jobs with
  | [] => mret unique_jobs
  | job :: rest =>
      key ← dedup_key job;
      if bool_decide (key ∉ seen) && negb (String.eqb key "_")
      then dedup_loop rest ({[key]} ∪ seen) (unique_jobs ++ [job])
      else dedup_loop rest seen unique_jobs
  end.

Definition remove_duplicates (jobs : list listing) : result (list listing) :=
  dedup_loop jobs ∅ [].

(** *** Reporting and sinks *)

(** One turn of the loop of [_print_results], as far as the description can
    make it raise: [len(description) > 150] on a value without length, and
    [description[:150] + "..."] on a list (a list and a string do not add
    up) or a dict (which cannot be sliced). The [print] calls themselves are
    taken to go through: a text that the console cannot encode (a string
    with a lone surrogate) is outside this model. *)
Definition print_job (job : listing) : result unit :=
  let description := default (PyStr "N/A") (job !! "description") in
  if truthy description && negb (is_str "N/A" description) then
    n ← py_len description;
    if Nat.ltb 150 n then
      match description with
      | PyStr _ => mret ()
      | PyDict _ => Raise dict_slice_error
      | _ => Raise TypeError
      end
    else mret ()
  else mret ().

Definition print_results (jobs : list listing) : result unit :=
  _ ← mapM print_job (py_slice jobs 0 10);
  mret ().

Definition countries : list string := ["France"; "Morocco"].

Definition json_output (jobs : list listing) : pyval :=
  PyDict (<["metadata" := PyDict
              (<["total_jobs" := PyInt (Z.of_nat (length jobs))]>
              (<["scraped_at" := PyStr now_isoformat]>
              (<["target_countries" := PyList (PyStr <$> countries)]>
              (<["query" := PyStr "data internship"]> ∅))))]>
          (<["jobs" := PyList (PyDict <$> jobs)]> ∅)).

Definition save_to_json (jobs : list listing) (filename : string) : io unit :=
  try_io
    (_ ← dump_json filename (json_output jobs);
     act (say (SavedTo filename (length jobs))))
    (λ e, act (say (SaveError e))).

(** [batch_size = 100] *)
Definition insert_to_supabase (self : scraper) (jobs : list listing) : io unit :=
  act (insert_with 100 (supabase self) jobs).

(** *** The run *)

(** The key embedded at line 24 (its value is left out here). *)
Definition embedded_api_key : string := "(embedded key)".

Definition init (environ : gmap string string) : result scraper :=
  let api_key := default embedded_api_key (getenv environ "RAPIDAPI_KEY") in
  let supabase_url := getenv environ "SUPABASE_URL" in
  let supabase_key := getenv environ "SUPABASE_KEY" in
  if unset supabase_url || unset supabase_key then Raise ValueError
  else
    supabase ← create_client (default "" supabase_url) (default "" supabase_key);
    mret {| api_key := api_key; supabase := supabase |}.

(** [run] from the point where [all_jobs] has been collected. *)
Definition run_stages (self : scraper) (all_jobs : list listing) : io (list listing) :=
  all_jobs ← lift (remove_duplicates all_jobs);
  _ ← lift (print_results all_jobs);
  _ ← save_to_json all_jobs "linkedin_jobs.json";
  _ ← insert_to_supabase self all_jobs;
  mret all_jobs.

Definition run (self : scraper) : io (list listing) :=
  run_stages self (fetch_jsearch_jobs self ++ fetch_active_jobs_db self).

(** The [__main__] block. *)
Definition main (environ : gmap string string) : io unit :=
  scraper ← lift (init environ);
  jobs ← run scraper;
  mret ().

End WithRuntime.
End Scraper.

(** ** linkedin.py *)

Module Linkedin.
Section WithRuntime.
Context {RT : Runtime} {OUT : Outside}.

Definition search_url : string :=
  "https://www.linkedin.com/jobs/search/?currentJobId=4318630051&distance=100&f_TPR=r86400&keywords=data&location=casablanca&origin=JOB_SEARCH_PAGE_JOB_FILTER&trk=jobs_jserp_facet_geo_city".

(** Lines 89-96. *)
Definition initial_job_data : listing :=
  <["logo" := PyStr "-"]> (<["title" := PyStr "-"]> (<["description" := PyStr "-"]>
    (<["company" := PyStr "-"]> (<["location" := PyStr "-"]> (<["url" := PyStr "-"]> ∅))))).

(** [try: job_data[key] = <lookup> or "-" / except: pass] *)
Definition scrape_field (key : string) (lookup : result pyval)
    (job_data : listing) : listing :=
  try_except
    (value ← lookup; mret (<[key := py_or value (PyStr "-")]> job_data))
    (λ _, job_data).

(** [element.text.strip()] *)
Definition stripped (text : result string) : result pyval :=
  (λ s, PyStr (str_strip s)) <$> text.

(** The body of the [try] of the loop over [job_items]. *)
Definition scrape_item (job_item : job_item) : result listing :=
  job_card ← item_card job_item;
  let job_data := initial_job_data in
  let job_data := scrape_field "logo" (logo_src job_card) job_data in
  let job_data := scrape_field "title" (stripped (title_text job_card)) job_data in
  let job_data := scrape_field "company" (stripped (company_text job_card)) job_data in
  let job_data := scrape_field "location" (stripped (location_text job_card)) job_data in
  let job_data := scrape_field "url" (link_href job_card) job_data in
  mret (<["description" := PyStr "Job description not available in list view"]> job_data).

Definition scrape_step (scraped_jobs : list listing) (job_item : job_item) : list listing :=
  try_except
    (job_data ← scrape_item job_item; mret (scraped_jobs ++ [job_data])%list)
    (λ _, scraped_jobs).

Definition scrape_items (job_items : list job_item) : list listing :=
  foldl scrape_step [] job_items.

Definition json_output (scraped_jobs : list listing) : pyval :=
  PyDict (<["metadata" := PyDict
              (<["total_jobs" := PyInt (Z.of_nat (length scraped_jobs))]>
              (<["scraped_at" := PyStr now_isoformat]>
              (<["source" := PyStr "LinkedIn"]>
              (<["location" := PyStr "Casablanca, Morocco"]>
              (<["keywords" := PyStr "data"]> ∅)))))]>
          (<["jobs" := PyList (PyDict <$> scraped_jobs)]> ∅)).

Definition output_file : string := "linkedin_jobs_scraped.json".

(** [batch_size = 50] *)
Definition insert_to_supabase (supabase : client) (jobs : list listing) : io unit :=
  act (insert_with 50 supabase jobs).

(** Lines 28-37: the client, or [None] with a warning. *)
Definition connect (environ : gmap string string) : io (option client) :=
  let supabase_url := getenv environ "SUPABASE_URL" in
  let supabase_key := getenv environ "SUPABASE_KEY" in
  if unset supabase_url || unset supabase_key then
    _ ← act (say NoSupabaseWarning);
    mret None
  else
    supabase ← lift (create_client (default "" supabase_url) (default "" supabase_key));
    _ ← act (say SupabaseReady);
    mret (Some supabase).

(** The body of the outer [try], lines 50-176. *)
Definition session (supabase : option client) : io unit :=
  job_items ← lift (browse search_url);
  let scraped_jobs := scrape_items job_items in
  _ ← dump_json output_file (json_output scraped_jobs);
  _ ← act (say (SavedTo output_file (length scraped_jobs)));
  _ ← match supabase with
      | Some client => insert_to_supabase client scraped_jobs
      | None => act (say InsertSkipped)
      end;
  lift driver_quit.

Definition scrape_linkedin_jobs (environ : gmap string string) : io unit :=
  supabase ← connect environ;
  try_io (session supabase) (λ e, act (say (ScrapeError e))).

End WithRuntime.
End Linkedin.


(** ** Concrete collaborators, to run the definitions *)

Module Demo.

(** A remote table that records every batch it is sent and refuses the
    calls whose rank (from 0) is in [refused]; a file system on which
    exactly the names in [read_only] cannot be opened for writing; one HTTP
    answer for every request; one page of LinkedIn items. *)
Definition outside (refused : list nat) (read_only : list string)
    (answer : result response) (page : result (list job_item)) : Outside := {|
  remote_state := list (list listing);
  client := string * string;
  create_client := λ url key, Ok (url, key);
  table_insert := λ _ sent batch,
    (sent ++ [batch],
     if bool_decide (length sent ∈ refused) then Raise (OtherError "refused") else Ok ());
  http_get := λ _ _ _, answer;
  fs_writable := λ filename, negb (bool_decide (filename ∈ read_only));
  fs_failure := λ _, AtOpen OSError;
  now_isoformat := "2025-01-01T00:00:00";
  browse := λ _, page;
  driver_quit := Ok ();
|}.

Definition offline : result response := Raise (OtherError "offline").

(** Nothing refused, every file writable, no network, an empty page. *)
Definition quiet : Outside := outside [] [] offline (Ok []).

(** As [quiet], with the second insert call refused. *)
Definition second_refused : Outside := outside [1] [] offline (Ok []).

Definition found (record : pyval) : result response :=
  Ok {| status_code := 200%Z;
        json := Ok (PyDict (<["data" := PyList [record]]> ∅)) |}.

(** Every API request answers one record that has no title. *)
Definition untitled_record : pyval :=
  PyDict (<["employer_name" := PyStr "Acme"]> ∅).

Definition untitled_api : Outside := outside [] [] (found untitled_record) (Ok []).

(** Every API request answers one full record, and the remote store refuses
    the first insert call. *)
Definition full_record : pyval :=
  PyDict (<["job_title" := PyStr "Data Intern"]>
         (<["employer_name" := PyStr "Acme"]>
         (<["company" := PyStr "Acme"]>
         (<["job_city" := PyStr "Paris"]>
         (<["job_country" := PyStr "France"]> ∅))))).

Definition remote_down : Outside := outside [0] [] (found full_record) (Ok []).

(** The two variables of the remote store, both set. *)
Definition credentials : gmap string string :=
  <["SUPABASE_URL" := "https://project.supabase.co"]> (<["SUPABASE_KEY" := "secret"]> ∅).

Definition blank {OUT : Outside} (r : remote_state) : world :=
  {| files := ∅; torn := ∅; remote := r; console := [] |}.

(** A listing with the given title and company and nothing else found. *)
Definition titled (title company : pyval) : listing :=
  Scraper.make_listing PyNone title PyNone company PyNone PyNone.

(** [n] listings with distinct titles *)
Definition numbered (n : nat) : list listing :=
  (λ i, titled (PyStr (pretty i)) (PyStr "Acme")) <$> seq 0 n.

End Demo.

(** ** Vocabulary of the statements *)

(** The six fields of a normalized listing. *)
Definition fields : list string :=
  ["logo"; "title"; "description"; "company"; "location"; "url"].

(** Every field is a key of the dict. *)
Definition complete (job : listing) : Prop :=
  dom job = list_to_set fields.

(** What a computation hands to a handler that turns an exception into
    [None]. *)
Definition returned {A : Type} (r : result A) : option A :=
  match r with
  | Ok a => Some a
  | Raise _ => None
  end.

(** ** The sequence of batches and the calls made for them *)

Section Batches.
Context {OUT : Outside}.

(** The slices [jobs[i:i + batch_size]] the loop goes through. *)
Definition batches (batch_size : nat) (jobs : list listing) : list (list listing) :=
  (λ k, py_slice jobs (k * batch_size) (k * batch_size + batch_size))
    <$> seq 0 ((length jobs + batch_size - 1) / batch_size).

(** What the remote store answers when it is sent [bs] in turn from state
    [r]: each batch with whether its call returned. *)
Fixpoint attempts (c : client) (r : remote_state) (bs : list (list listing))
    : list (list listing * bool) :=
  match bs with
  | [] => []
  | b :: bs' =>
      let o := table_insert c r b in
      (b, bool_decide (is_Some (returned o.2))) :: attempts c o.1 bs'
  end.

(** The number of listings in the batches whose call ended as [ok] says. *)
Fixpoint counted (ok : bool) (calls : list (list listing * bool)) : nat :=
  match calls with
  | [] => 0
  | (b, o) :: calls' =>
      (if Bool.eqb o ok then length b else 0) + counted ok calls'
  end.

(** The state of the remote store after it has been sent [bs] in turn. *)
Definition remote_after (c : client) (r : remote_state) (bs : list (list listing))
    : remote_state :=
  foldl (λ r b, (table_insert c r b).1) r bs.

End Batches.

(** ** Lists that deduplication leaves as they are *)

Section Fresh.
Context {RT : Runtime}.

(** [kept] can be appended one listing after the other starting from [seen]:
    every key is defined, new and not the bare separator. *)
Fixpoint fresh (seen : gset string) (kept : list listing) : Prop :=
  match kept with
  | [] => True
  | job :: kept' =>
      ∃ key, Scraper.dedup_key job = Ok key ∧ (key ∉ seen) ∧ (key ≠ "_")
             ∧ fresh ({[key]} ∪ seen) kept'
  end.

End Fresh.


(** ** Vocabulary of the further statements *)

Section Requests.
Context {OUT : Outside}.

(** The request of one turn of [_fetch_jsearch_jobs]. *)
Definition jsearch_request (self : Scraper.scraper) (query : string) : result response :=
  http_get Scraper.jsearch_url
    [("x-rapidapi-host", Scraper.jsearch_host); ("x-rapidapi-key", Scraper.api_key self)]
    [("query", query); ("page", "1"); ("num_pages", "1"); ("date_posted", "all")].

(** The request of [_fetch_active_jobs_db]. *)
Definition active_jobs_db_request (self : Scraper.scraper) : result response :=
  http_get Scraper.active_jobs_db_url
    [("x-rapidapi-host", Scraper.active_jobs_db_host);
     ("x-rapidapi-key", Scraper.api_key self)]
    [("limit", "500"); ("offset", "0"); ("description_type", "text")].

(** The lines printed for the batches [bs] sent in turn from state [r], the
    first of them numbered [number]. *)
Fixpoint batch_notices (c : client) (r : remote_state) (number : nat)
    (bs : list (list listing)) : list notice :=
  match bs with
  | [] => []
  | b :: bs' =>
      let o := table_insert c r b in
      match o.2 with
      | Ok _ => BatchInserted number (length b)
      | Raise e => BatchFailed number e
      end :: batch_notices c o.1 (S number) bs'
  end.

End Requests.

(** The keys that [_parse_active_jobs_db_job] tries for each field, in the
    order of lines 231-236. *)
Definition active_jobs_db_candidates : list (string * list string) :=
  [("logo", ["logo"; "company_logo"]);
   ("title", ["title"; "job_title"; "name"]);
   ("company", ["company"; "company_name"; "employer"]);
   ("location", ["location"; "city"]);
   ("url", ["url"; "link"; "job_url"])].

(** [a or b or ... or z] *)
Fixpoint first_truthy (values : list pyval) : pyval :=
  match values with
  | [] => PyNone
  | [v] => v
  | v :: rest => if truthy v then v else first_truthy rest
  end.

(** [v] is what [a or b or ... or z] gives over the values of [keys] in the
    record [d]: the first value that is truthy, or, when none is, the value
    of the last key. *)
Definition chosen_from (d : gmap string pyval) (keys : list string) (v : pyval) : Prop :=
  let value key := default PyNone (d !! key) in
  (truthy v = true
   ∧ ∃ i key, keys !! i = Some key ∧ v = value key
              ∧ ∀ j key', j < i → keys !! j = Some key' →
                          truthy (value key') = false)
  ∨ (truthy v = false
     ∧ (∀ key, key ∈ keys → truthy (value key) = false)
     ∧ ∃ key, last keys = Some key ∧ v = value key).

(** The field is not there or holds a string: [.get(field, '').lower()]
    goes through. *)
Definition text_or_missing (value : option pyval) : Prop :=
  match value with
  | None => True
  | Some (PyStr _) => True
  | Some _ => False
  end.

Definition keyed (job : listing) : Prop :=
  text_or_missing (job !! "title") ∧ text_or_missing (job !! "company").

(** The field is not there or holds the empty string. *)
Definition blank_field (value : option pyval) : Prop :=
  value = None ∨ value = Some (PyStr "").

Definition degenerate (job : listing) : Prop :=
  blank_field (job !! "title") ∧ blank_field (job !! "company").

(** The descriptions that [_print_results] gets through: a falsy value, a
    string, a list or a dict of at most 150 items. *)
Definition printable (description : pyval) : bool :=
  negb (truthy description)
  || match description with
     | PyStr _ => true
     | PyList l => Nat.leb (length l) 150
     | PyDict d => Nat.leb (size d) 150
     | _ => false
     end.

(** What a field of a LinkedIn listing holds after [<lookup> or "-"] inside
    [try ... except: pass]. *)
Definition or_dash (lookup : result pyval) : pyval :=
  match lookup with
  | Ok value => if truthy value then value else PyStr "-"
  | Raise _ => PyStr "-"
  end.

(** ** Further concrete cases *)

Module Cases.

(** A card with logo and location empty and no company element. *)
Definition first_card : card :=
  {| logo_src := Ok PyNone;
     title_text := Ok "Data Analyst";
     company_text := Raise (OtherError "no such element");
     location_text := Ok "";
     link_href := Ok (PyStr "https://www.linkedin.com/jobs/view/1") |}.

Definition first_item : job_item := {| item_card := Ok first_card |}.

(** A page of two items, the second without card. *)
Definition page : list job_item :=
  [first_item; {| item_card := Raise (OtherError "no such element") |}].

Definition linkedin : Outside := Demo.outside [] [] Demo.offline (Ok page).

Definition linkedin_read_only : Outside :=
  Demo.outside [] ["linkedin_jobs_scraped.json"] Demo.offline (Ok page).

(** As [linkedin_read_only], on a full disk: the two output files can be
    opened, which empties them, and the write then fails. *)
Definition disk_full : Outside := {|
  remote_state := list (list listing);
  client := string * string;
  create_client := create_client (Outside := linkedin_read_only);
  table_insert := table_insert (Outside := linkedin_read_only);
  http_get := http_get (Outside := linkedin_read_only);
  fs_writable := λ filename,
    negb (bool_decide (filename ∈ ["linkedin_jobs_scraped.json"; "linkedin_jobs.json"]));
  fs_failure := λ _, AfterOpen (OtherError "No space left on device");
  now_isoformat := now_isoformat (Outside := linkedin_read_only);
  browse := browse (Outside := linkedin_read_only);
  driver_quit := driver_quit (Outside := linkedin_read_only);
|}.

Definition no_browser : Outside :=
  Demo.outside [] [] Demo.offline (Raise (OtherError "no browser")).

Definition scraper_with {OUT : Outside} (c : client) : Scraper.scraper :=
  {| Scraper.api_key := "key"; Scraper.supabase := c |}.

(** The object under [Demo.full_record]. *)
Definition full_fields : gmap string pyval :=
  <["job_title" := PyStr "Data Intern"]>
  (<["employer_name" := PyStr "Acme"]>
  (<["company" := PyStr "Acme"]>
  (<["job_city" := PyStr "Paris"]>
  (<["job_country" := PyStr "France"]> ∅)))).


End Cases.

(** * Properties *)

(** ** Deduplication *)

(** Unfold the monad operations of [result] in the goal. *)
Ltac result_simpl :=
  cbn [mbind mret fmap result_bind result_ret result_fmap try_except py_get] in *.

Section Dedup.
Context {RT : Runtime}.
Import Scraper.

(** The only exception [_remove_duplicates] can raise is the
    [AttributeError] of [.lower()] on a value that is not a string. *)
Lemma dedup_key_raise (job : listing) (e : exn) :
  dedup_key job = Raise e → e = AttributeError.
Proof.
  unfold dedup_key, py_lower.
  destruct (default _ (job !! "title")); cbn; try (by intros [= <-]);
    destruct (default _ (job !! "company")); cbn; by intros [= <-].
Qed.

Lemma dedup_key_title_none (job : listing) :
  job !! "title" = Some PyNone → dedup_key job = Raise AttributeError.
Proof. intros Ht. unfold dedup_key. by rewrite Ht. Qed.

Lemma dedup_loop_raise (jobs : list listing) :
  ∀ seen acc e, dedup_loop jobs seen acc = Raise e → e = AttributeError.
Proof.
  induction jobs as [|job rest IH]; intros seen acc e; simpl; [done|].
  destruct (dedup_key job) as [key|e'] eqn:Hk; simpl.
  - destruct (_ && _); apply IH.
  - intros [= <-]. by eapply dedup_key_raise.
Qed.

(** A listing whose title is [None] anywhere in the input makes the whole
    deduplication raise. *)
Lemma dedup_loop_title_none (before after : list listing) (job : listing) :
  job !! "title" = Some PyNone →
  ∀ seen acc, dedup_loop (before ++ job :: after) seen acc = Raise AttributeError.
Proof.
  intros Ht. induction before as [|j before IH]; intros seen acc; simpl.
  - by rewrite (dedup_key_title_none _ Ht).
  - destruct (dedup_key j) as [key|e] eqn:Hk; simpl.
    + destruct (_ && _); apply IH.
    + by rewrite (dedup_key_raise _ _ Hk).
Qed.

Lemma dedup_loop_kept (jobs : list listing) :
  ∀ seen acc out, dedup_loop jobs seen acc = Ok out →
  ∃ kept, out = acc ++ kept ∧ fresh seen kept ∧ sublist kept jobs.
Proof.
  induction jobs as [|job rest IH]; intros seen acc out; simpl.
  - intros [= <-]. exists []. by rewrite app_nil_r.
  - destruct (dedup_key job) as [key|e] eqn:Hk; simpl; [|done].
    destruct (bool_decide (key ∉ seen)) eqn:Hseen; simpl.
    + destruct (String.eqb key "_") eqn:Hsep; simpl.
      * intros Hout. destruct (IH _ _ _ Hout) as (kept & -> & Hf & Hs).
        exists kept. split_and!; [done..|by apply sublist_cons].
      * intros Hout. destruct (IH _ _ _ Hout) as (kept & -> & Hf & Hs).
        exists (job :: kept). rewrite <- app_assoc. split_and!; [done| |by apply sublist_skip].
        exists key. apply bool_decide_eq_true in Hseen.
        apply String.eqb_neq in Hsep. done.
    + intros Hout. destruct (IH _ _ _ Hout) as (kept & -> & Hf & Hs).
      exists kept. split_and!; [done..|by apply sublist_cons].
Qed.

Lemma dedup_loop_fresh (kept : list listing) :
  ∀ seen acc, fresh seen kept → dedup_loop kept seen acc = Ok (acc ++ kept).
Proof.
  induction kept as [|job kept IH]; intros seen acc; simpl.
  - intros _. by rewrite app_nil_r.
  - intros (key & -> & Hseen & Hsep & Hf). simpl.
    rewrite bool_decide_eq_true_2 by done.
    apply String.eqb_neq in Hsep. rewrite Hsep. simpl.
    rewrite IH by done. by rewrite <- app_assoc.
Qed.

(** On a list whose titles and companies are all strings (or missing keys)
    the loop returns. *)
Lemma dedup_loop_returns (jobs : list listing) :
  Forall (λ job, is_Some (returned (dedup_key job))) jobs →
  ∀ seen acc, is_Some (returned (dedup_loop jobs seen acc)).
Proof.
  induction 1 as [|job rest Hjob _ IH]; intros seen acc; simpl; [by eexists|].
  destruct (dedup_key job) as [key|e]; [|by destruct Hjob].
  result_simpl. destruct (_ && _); apply IH.
Qed.

(** The first listing with a given key, when the key is new and not the bare
    separator, is kept. *)
Lemma dedup_loop_first_kept (jobs : list listing) :
  ∀ seen acc out, dedup_loop jobs seen acc = Ok out →
  ∀ before job after key,
    jobs = before ++ job :: after →
    dedup_key job = Ok key → key ≠ "_" → key ∉ seen →
    (∀ earlier, earlier ∈ before → dedup_key earlier ≠ Ok key) →
    ∃ kept, out = acc ++ kept ∧ job ∈ kept.
Proof.
  induction jobs as [|first rest IH]; intros seen acc out Hout before job after key
    Hsplit Hkey Hsep Hnew Hfirst.
  - by destruct before.
  - simpl in Hout. destruct before as [|b before]; simplify_eq/=.
    + rewrite Hkey in Hout. result_simpl.
      rewrite bool_decide_eq_true_2 in Hout by done.
      apply String.eqb_neq in Hsep. rewrite Hsep in Hout. simpl in Hout.
      destruct (dedup_loop_kept _ _ _ _ Hout) as (kept & -> & _).
      exists (job :: kept). rewrite <- app_assoc. split; [done|]. by left.
    + destruct (dedup_key b) as [kb|] eqn:Hb; [|done]. result_simpl.
      assert (kb ≠ key) as Hne.
      { intros ->. by eapply Hfirst; [left|]. }
      assert (∀ earlier, earlier ∈ before → dedup_key earlier ≠ Ok key) as Hfirst'.
      { intros earlier Hin. apply Hfirst. by right. }
      destruct (bool_decide (kb ∉ seen) && negb (String.eqb kb "_")).
      * assert (key ∉ ({[kb]} ∪ seen : gset string)) as Hnew'.
        { apply not_elem_of_union. split; [|done].
          apply not_elem_of_singleton. congruence. }
        destruct (IH _ _ _ Hout before job after key eq_refl Hkey Hsep
                    Hnew' Hfirst') as (kept & -> & Hin).
        exists (b :: kept). rewrite <- app_assoc. split; [done|]. by right.
      * by eapply IH.
Qed.

(** What [_remove_duplicates] does on a list whose titles and companies are
    all strings: it returns a sublist of its input in which the keys are
    pairwise distinct and none is the bare separator, and which holds the
    first listing of every other key. *)
Lemma remove_duplicates_first_wins (jobs : list listing) :
  Forall (λ job, is_Some (returned (dedup_key job))) jobs →
  ∃ out, remove_duplicates jobs = Ok out
         ∧ sublist out jobs
         ∧ fresh ∅ out
         ∧ ∀ before job after key,
             jobs = before ++ job :: after →
             dedup_key job = Ok key → key ≠ "_" →
             (∀ earlier, earlier ∈ before → dedup_key earlier ≠ Ok key) →
             job ∈ out.
Proof.
  intros Hkeys. unfold remove_duplicates.
  destruct (dedup_loop_returns jobs Hkeys ∅ []) as [out Hout].
  destruct (dedup_loop jobs ∅ []) as [out'|] eqn:Hrun; [|done].
  exists out'. split; [done|].
  destruct (dedup_loop_kept _ _ _ _ Hrun) as (kept & -> & Hfresh & Hsub).
  split_and!; [done..|].
  intros before job after key Hsplit Hkey Hsep Hfirst.
  destruct (dedup_loop_first_kept _ _ _ _ Hrun before job after key
              Hsplit Hkey Hsep (not_elem_of_empty key) Hfirst) as (kept' & Heq & Hin).
  simpl in Heq. by subst.
Qed.

(** C3. Deduplication is idempotent: running [_remove_duplicates] on its own
    result gives that result again, and where the first run raises, so does
    the composition. *)
Theorem remove_duplicates_idempotent (jobs : list listing) :
  remove_duplicates jobs ≫= remove_duplicates = remove_duplicates jobs.
Proof.
  unfold remove_duplicates.
  destruct (dedup_loop jobs ∅ []) as [out|e] eqn:Hout; result_simpl; [|done].
  destruct (dedup_loop_kept _ _ _ _ Hout) as (kept & -> & Hf & _).
  by apply dedup_loop_fresh.
Qed.

End Dedup.

(** ** Field extraction *)

Section Extraction.
Context {RT : Runtime} {OUT : Outside}.
Import Scraper.

Lemma make_listing_complete (logo title description company location url : pyval) :
  complete (make_listing logo title description company location url).
Proof.
  unfold complete, make_listing, fields. rewrite !dom_insert_L, dom_empty_L.
  simpl. set_solver.
Qed.

Lemma complete_truthy (job : listing) : complete job → truthy (PyDict job) = true.
Proof.
  unfold complete. intros Hd. simpl.
  destruct (size job) eqn:Hs; [|done].
  apply map_size_empty_inv in Hs. subst job. rewrite dom_empty_L in Hd.
  unfold fields in Hd. simpl in Hd. set_solver.
Qed.

Lemma parse_jsearch_body_complete (job_data : pyval) (job : listing) :
  parse_jsearch_body job_data = Ok job → complete job.
Proof.
  unfold parse_jsearch_body, jsearch_location.
  destruct job_data; try done. result_simpl.
  destruct (clean_description _); result_simpl; [|done].
  repeat case_match; result_simpl; intros [= <-]; apply make_listing_complete.
Qed.

Lemma parse_active_jobs_db_body_complete (job_data : pyval) (job : listing) :
  parse_active_jobs_db_body job_data = Ok job → complete job.
Proof.
  unfold parse_active_jobs_db_body.
  destruct job_data; try done. result_simpl.
  destruct (clean_description _); result_simpl; [|done].
  intros [= <-]; apply make_listing_complete.
Qed.

Lemma parse_jsearch_job_returned (job_data : pyval) :
  parse_jsearch_job job_data = returned (parse_jsearch_body job_data).
Proof. unfold parse_jsearch_job. by destruct (parse_jsearch_body _). Qed.

Lemma parse_active_jobs_db_job_returned (job_data : pyval) :
  parse_active_jobs_db_job job_data = returned (parse_active_jobs_db_body job_data).
Proof. unfold parse_active_jobs_db_job. by destruct (parse_active_jobs_db_body _). Qed.

(** The loop over a batch keeps, in order, the listings of the records whose
    extraction returned. *)
Lemma collect_omap (parse : pyval → option listing) (api_jobs : list pyval) :
  (∀ job_data job, parse job_data = Some job → complete job) →
  ∀ jobs, collect parse jobs api_jobs = jobs ++ omap parse api_jobs.
Proof.
  intros Hc. unfold collect.
  induction api_jobs as [|job_data rest IH]; intros jobs; simpl.
  - by rewrite app_nil_r.
  - rewrite IH. unfold append_parsed.
    destruct (parse job_data) as [job|] eqn:Hp; [|done].
    rewrite (complete_truthy job) by eauto. by rewrite <- app_assoc.
Qed.

Lemma collect_complete (parse : pyval → option listing) (api_jobs : list pyval) :
  (∀ job_data job, parse job_data = Some job → complete job) →
  ∀ jobs, Forall complete jobs → Forall complete (collect parse jobs api_jobs).
Proof.
  intros Hc jobs Hjobs. rewrite collect_omap by done.
  apply Forall_app. split; [done|].
  apply Forall_forall. intros job Hin.
  apply list_elem_of_omap in Hin as (job_data & _ & Hp). eauto.
Qed.

Lemma parse_jsearch_job_complete (job_data : pyval) (job : listing) :
  parse_jsearch_job job_data = Some job → complete job.
Proof.
  rewrite parse_jsearch_job_returned.
  destruct (parse_jsearch_body job_data) eqn:Hb; [|done].
  intros [= <-]. by eapply parse_jsearch_body_complete.
Qed.

Lemma parse_active_jobs_db_job_complete (job_data : pyval) (job : listing) :
  parse_active_jobs_db_job job_data = Some job → complete job.
Proof.
  rewrite parse_active_jobs_db_job_returned.
  destruct (parse_active_jobs_db_body job_data) eqn:Hb; [|done].
  intros [= <-]. by eapply parse_active_jobs_db_body_complete.
Qed.

Lemma fetch_jsearch_query_complete (self : scraper) (jobs : list listing) (query : string) :
  Forall complete jobs → Forall complete (fetch_jsearch_query self jobs query).
Proof.
  intros Hjobs. unfold fetch_jsearch_query.
  destruct (http_get _ _ _) as [response|]; result_simpl; [|done].
  destruct (status_code response =? 200)%Z; result_simpl; [|done].
  destruct (json response) as [data|]; result_simpl; [|done].
  destruct (py_get data _ _) as [api_jobs|]; cbn [mbind result_bind try_except]; [|done].
  destruct (py_iter api_jobs) as [items|]; result_simpl; [|done].
  apply collect_complete; [apply parse_jsearch_job_complete|done].
Qed.

Lemma fetch_jsearch_jobs_complete (self : scraper) :
  Forall complete (fetch_jsearch_jobs self).
Proof.
  unfold fetch_jsearch_jobs. generalize jsearch_queries. intros queries.
  assert (Hnil : Forall complete []) by constructor. revert Hnil.
  generalize (@nil listing).
  induction queries as [|query queries IH]; intros jobs Hjobs; simpl; [done|].
  by apply IH, fetch_jsearch_query_complete.
Qed.

Lemma fetch_active_jobs_db_complete (self : scraper) :
  Forall complete (fetch_active_jobs_db self).
Proof.
  unfold fetch_active_jobs_db.
  destruct (http_get _ _ _) as [response|]; result_simpl; [|done].
  destruct (status_code response =? 200)%Z; result_simpl; [|done].
  destruct (json response) as [data|]; result_simpl; [|done].
  destruct (py_get data "data" _) as [by_data|]; cbn [mbind result_bind try_except]; [|done].
  destruct (py_get data "jobs" _) as [by_jobs|]; cbn [mbind result_bind try_except]; [|done].
  destruct (py_iter _) as [items|]; result_simpl; [|done].
  apply collect_complete; [apply parse_active_jobs_db_job_complete|done].
Qed.

Lemma insert_complete (key : string) (value : pyval) (job : listing) :
  key ∈ fields → complete job → complete (<[key := value]> job).
Proof.
  unfold complete. intros Hk Hd. rewrite dom_insert_L, Hd.
  apply subseteq_union_1_L, singleton_subseteq_l.
  by apply elem_of_list_to_set.
Qed.

Lemma scrape_field_complete (key : string) (lookup : result pyval) (job : listing) :
  key ∈ fields → complete job → complete (Linkedin.scrape_field key lookup job).
Proof.
  intros Hk Hd. unfold Linkedin.scrape_field.
  destruct lookup; result_simpl; [by apply insert_complete|done].
Qed.

Lemma initial_job_data_complete : complete Linkedin.initial_job_data.
Proof.
  unfold complete, Linkedin.initial_job_data, fields.
  rewrite !dom_insert_L, dom_empty_L. simpl. set_solver.
Qed.

Lemma scrape_item_complete (job_item : job_item) (job : listing) :
  Linkedin.scrape_item job_item = Ok job → complete job.
Proof.
  unfold Linkedin.scrape_item.
  destruct (item_card job_item) as [job_card|]; result_simpl; [|done].
  intros [= <-].
  apply insert_complete; [unfold fields; set_solver|].
  repeat (apply scrape_field_complete; [unfold fields; set_solver|]).
  apply initial_job_data_complete.
Qed.

Lemma scrape_items_complete (job_items : list job_item) :
  Forall complete (Linkedin.scrape_items job_items).
Proof.
  unfold Linkedin.scrape_items.
  assert (Hnil : Forall complete []) by constructor. revert Hnil.
  generalize (@nil listing).
  induction job_items as [|job_item rest IH]; intros jobs Hjobs; simpl; [done|].
  apply IH. unfold Linkedin.scrape_step.
  destruct (Linkedin.scrape_item job_item) as [job|] eqn:Hi; result_simpl; [|done].
  apply Forall_app. split; [done|].
  constructor; [by eapply scrape_item_complete|constructor].
Qed.

(** C9. Every listing that an extraction path produces (the two API parsers
    of scraper.py and the item scraper of linkedin.py, and so the lists the
    three sources hand on) has all six fields as keys: a field that was not
    found holds a sentinel, it is not missing from the dict. *)
Theorem listings_have_all_six_fields :
  (∀ job_data job, parse_jsearch_job job_data = Some job →
     ∀ field, field ∈ fields → is_Some (job !! field)) ∧
  (∀ job_data job, parse_active_jobs_db_job job_data = Some job →
     ∀ field, field ∈ fields → is_Some (job !! field)) ∧
  (∀ job_item job, Linkedin.scrape_item job_item = Ok job →
     ∀ field, field ∈ fields → is_Some (job !! field)) ∧
  (∀ self, Forall complete (fetch_jsearch_jobs self)) ∧
  (∀ self, Forall complete (fetch_active_jobs_db self)) ∧
  (∀ job_items, Forall complete (Linkedin.scrape_items job_items)).
Proof.
  assert (Hdom : ∀ job : listing, complete job →
            ∀ field, field ∈ fields → is_Some (job !! field)).
  { intros job Hc field Hf. apply elem_of_dom. rewrite Hc.
    by apply elem_of_list_to_set. }
  split_and!.
  - intros job_data job Hp. by eapply Hdom, parse_jsearch_job_complete.
  - intros job_data job Hp. by eapply Hdom, parse_active_jobs_db_job_complete.
  - intros job_item job Hp. by eapply Hdom, scrape_item_complete.
  - apply fetch_jsearch_jobs_complete.
  - apply fetch_active_jobs_db_complete.
  - apply scrape_items_complete.
Qed.

Lemma omap_pointwise {A B : Type} (f g : A → option B) (l : list A) :
  (∀ x, f x = g x) → omap f l = omap g l.
Proof.
  intros Hfg. induction l as [|x l IH]; [done|].
  cbn [omap list_omap]. by rewrite Hfg, IH.
Qed.

(** C6. Extraction of one record never raises past its boundary: when the
    body of a parser raises, the parser returns [None], the record is not
    appended, and the loop goes on with the records that follow, whose
    listings are kept as if the failing record had not been there. In all,
    the loop over a batch appends, in their order, the listings of exactly
    the records whose extraction returned. *)
Theorem failing_record_is_dropped (job_data : pyval) :
  (∀ e, parse_jsearch_body job_data = Raise e →
     parse_jsearch_job job_data = None ∧
     ∀ jobs before after,
       collect parse_jsearch_job jobs (before ++ job_data :: after)
       = collect parse_jsearch_job jobs (before ++ after)) ∧
  (∀ e, parse_active_jobs_db_body job_data = Raise e →
     parse_active_jobs_db_job job_data = None ∧
     ∀ jobs before after,
       collect parse_active_jobs_db_job jobs (before ++ job_data :: after)
       = collect parse_active_jobs_db_job jobs (before ++ after)) ∧
  (∀ jobs api_jobs,
     collect parse_jsearch_job jobs api_jobs
     = jobs ++ omap (λ record, returned (parse_jsearch_body record)) api_jobs
     ∧ collect parse_active_jobs_db_job jobs api_jobs
       = jobs ++ omap (λ record, returned (parse_active_jobs_db_body record)) api_jobs).
Proof.
  split_and!; [intros e He|intros e He|].
  3: { intros jobs api_jobs. split.
       - rewrite collect_omap by apply parse_jsearch_job_complete.
         f_equal. apply omap_pointwise, parse_jsearch_job_returned.
       - rewrite collect_omap by apply parse_active_jobs_db_job_complete.
         f_equal. apply omap_pointwise, parse_active_jobs_db_job_returned. }
  - assert (Hn : parse_jsearch_job job_data = None).
    { by rewrite parse_jsearch_job_returned, He. }
    split; [done|]. intros jobs before after.
    rewrite !collect_omap by apply parse_jsearch_job_complete.
    rewrite !omap_app. simpl. by rewrite Hn.
  - assert (Hn : parse_active_jobs_db_job job_data = None).
    { by rewrite parse_active_jobs_db_job_returned, He. }
    split; [done|]. intros jobs before after.
    rewrite !collect_omap by apply parse_active_jobs_db_job_complete.
    rewrite !omap_app. simpl. by rewrite Hn.
Qed.

(** C7. The location that [_parse_jsearch_job] extracts from a record: city
    and country joined by a comma and a space when both are present and not
    empty, else the one of the two that is, else the generic location field,
    else [None]. *)
Theorem jsearch_location_composition (d : gmap string pyval) :
  let city := default PyNone (d !! "job_city") in
  let country := default PyNone (d !! "job_country") in
  ∃ location,
    jsearch_location (PyDict d) = Ok location ∧
    (∀ job, parse_jsearch_job (PyDict d) = Some job →
       job !! "location" = Some location) ∧
    (truthy city = true → truthy country = true →
       location = PyStr (py_str city +:+ ", " +:+ py_str country)) ∧
    (truthy city = true → truthy country = false → location = city) ∧
    (truthy city = false → truthy country = true → location = country) ∧
    (truthy city = false → truthy country = false →
       location = default PyNone (d !! "job_location")).
Proof.
  intros city country.
  destruct (jsearch_location (PyDict d)) as [location|e] eqn:Hloc.
  2: { unfold jsearch_location in Hloc. result_simpl.
       repeat case_match; done. }
  exists location. split; [done|]. split.
  - intros job. rewrite parse_jsearch_job_returned. unfold parse_jsearch_body.
    rewrite Hloc. result_simpl.
    destruct (clean_description _); result_simpl; [|done].
    intros [= <-]. unfold make_listing. by simplify_map_eq.
  - unfold jsearch_location in Hloc. result_simpl.
    fold city country in Hloc.
    destruct (truthy city), (truthy country); simpl in Hloc;
      injection Hloc as <-; split_and!; done.
Qed.

End Extraction.

(** ** Batched insertion *)

Section Insertion.
Context {RT : Runtime} {OUT : Outside}.

Lemma py_slice_chunk (jobs : list listing) (k batch_size : nat) :
  py_slice jobs (k * batch_size) (k * batch_size + batch_size)
  = take batch_size (drop (k * batch_size) jobs).
Proof. unfold py_slice. f_equal. lia. Qed.

(** Cutting a list every [batch_size] items and gluing the pieces gives the
    list back. *)
Lemma chunks_concat (batch_size k : nat) :
  ∀ jobs : list listing, length jobs ≤ k * batch_size →
  concat ((λ i, take batch_size (drop (i * batch_size) jobs)) <$> seq 0 k) = jobs.
Proof.
  induction k as [|k IH]; intros jobs Hlen.
  - simpl in *. by destruct jobs; [|simpl in Hlen; lia].
  - rewrite <- cons_seq, <- fmap_S_seq. rewrite fmap_cons, <- list_fmap_compose.
    simpl concat. rewrite drop_0.
    transitivity (take batch_size jobs ++ drop batch_size jobs); [|apply take_drop].
    f_equal.
    etransitivity; [|apply (IH (drop batch_size jobs)); rewrite length_drop; lia].
    f_equal. apply list_fmap_ext. intros _ i _. simpl.
    by rewrite drop_drop.
Qed.

Lemma batch_count_bounds (n batch_size : nat) :
  0 < batch_size →
  let k := (n + batch_size - 1) / batch_size in
  n ≤ k * batch_size ∧ (0 < k → (k - 1) * batch_size < n).
Proof.
  intros Hpos k.
  pose proof (Nat.div_mod (n + batch_size - 1) batch_size ltac:(lia)) as Hdm.
  pose proof (Nat.mod_upper_bound (n + batch_size - 1) batch_size ltac:(lia)) as Hm.
  fold k in Hdm. split; [nia|]. intros Hk. nia.
Qed.

Lemma batches_concat (batch_size : nat) (jobs : list listing) :
  0 < batch_size → concat (batches batch_size jobs) = jobs.
Proof.
  intros Hpos. unfold batches.
  erewrite list_fmap_ext; [apply chunks_concat|].
  - by apply batch_count_bounds.
  - intros _ k _. apply py_slice_chunk.
Qed.


Lemma counted_total (calls : list (list listing * bool)) :
  counted true calls + counted false calls = length (concat (calls.*1)).
Proof.
  induction calls as [|[b o] calls IH]; [done|].
  rewrite fmap_cons. cbn [counted concat fst]. rewrite length_app, <- IH.
  destruct o; simpl; lia.
Qed.

Lemma attempts_batches (c : client) (bs : list (list listing)) :
  ∀ r, (attempts c r bs).*1 = bs.
Proof. induction bs as [|b bs IH]; intros r; simpl; [done|]. by rewrite IH. Qed.

(** One turn of the loop: the call is made, and the length of the batch goes
    to the counter that its outcome selects. *)
Lemma insert_step_spec (c : client) (batch_size : nat) (jobs : list listing)
    (st : world * tally) (i : nat) :
  let batch := py_slice jobs i (i + batch_size) in
  let o := table_insert c (remote st.1) batch in
  let ok := bool_decide (is_Some (returned o.2)) in
  let st' := insert_step c batch_size jobs st i in
  total_inserted st'.2 = total_inserted st.2 + (if Bool.eqb ok true then length batch else 0)
  ∧ total_failed st'.2 = total_failed st.2 + (if Bool.eqb ok false then length batch else 0)
  ∧ remote st'.1 = o.1
  ∧ files st'.1 = files st.1.
Proof.
  intros batch o ok st'. subst st' ok. unfold insert_step. fold batch. fold o.
  destruct o as [r [[]|e]]; simpl; split_and!; (done || lia).
Qed.

(** The loop over the batch starts: counters, remote state and files after
    it, in terms of the calls made. *)
Lemma insert_fold (c : client) (batch_size : nat) (jobs : list listing)
    (ks : list nat) :
  ∀ st : world * tally,
  let sent := (λ k, py_slice jobs (k * batch_size) (k * batch_size + batch_size)) <$> ks in
  let calls := attempts c (remote st.1) sent in
  let st' := foldl (insert_step c batch_size jobs) st ((λ k, k * batch_size) <$> ks) in
  total_inserted st'.2 = total_inserted st.2 + counted true calls
  ∧ total_failed st'.2 = total_failed st.2 + counted false calls
  ∧ remote st'.1 = remote_after c (remote st.1) sent
  ∧ files st'.1 = files st.1.
Proof.
  induction ks as [|k ks IH]; intros st.
  - simpl. split_and!; (done || lia).
  - rewrite !fmap_cons. cbn [foldl attempts counted remote_after].
    destruct (insert_step_spec c batch_size jobs st (k * batch_size))
      as (Hi & Hf & Hr & Hfiles).
    set (st1 := insert_step c batch_size jobs st (k * batch_size)) in *.
    destruct (IH st1) as (Hi' & Hf' & Hr' & Hfiles').
    rewrite Hr in Hi', Hf', Hr'. unfold remote_after in Hr'.
    rewrite Hi', Hf', Hr', Hfiles', Hi, Hf, Hfiles.
    split_and!; (done || lia).
Qed.

Lemma insert_batches_spec (c : client) (batch_size : nat) (jobs : list listing)
    (w : world) :
  0 < batch_size →
  let calls := attempts c (remote w) (batches batch_size jobs) in
  ∃ w', insert_batches c batch_size jobs w
        = Ok (w', {| total_inserted := counted true calls;
                     total_failed := counted false calls |})
        ∧ remote w' = remote_after c (remote w) (batches batch_size jobs)
        ∧ files w' = files w.
Proof.
  intros Hpos calls. unfold insert_batches, py_range0.
  destruct batch_size as [|n]; [lia|]. result_simpl.
  set (st0 := (w, {| total_inserted := 0; total_failed := 0 |})).
  pose proof (insert_fold c (S n) jobs
                (seq 0 ((length jobs + S n - 1) / S n)) st0) as Hfold.
  simpl in Hfold. destruct Hfold as (Hi & Hf & Hr & Hfiles).
  fold (batches (S n) jobs) in Hi, Hf, Hr. fold calls in Hi, Hf.
  destruct (foldl _ st0 _) as [w' [ins fail]] eqn:Hrun. simpl in *.
  exists w'. subst ins fail. done.
Qed.


(** C10. After the remote insert of either file, the two counters add up to
    the number of listings given: each listing is counted once, in
    [total_inserted] or in [total_failed]. *)
Theorem every_listing_counted_once (self : Scraper.scraper) (supabase : client)
    (jobs : list listing) (w : world) :
  (∃ w' t, insert_batches (Scraper.supabase self) 100 jobs w = Ok (w', t)
           ∧ Scraper.insert_to_supabase self jobs w = (report t w', Ok ())
           ∧ total_inserted t + total_failed t = length jobs)
  ∧ (∃ w' t, insert_batches supabase 50 jobs w = Ok (w', t)
             ∧ Linkedin.insert_to_supabase supabase jobs w = (report t w', Ok ())
             ∧ total_inserted t + total_failed t = length jobs).
Proof.
  split.
  - destruct (insert_batches_spec (Scraper.supabase self) 100 jobs w ltac:(lia))
      as (w' & Hrun & _).
    eexists w', _. split; [exact Hrun|]. split.
    + unfold Scraper.insert_to_supabase, act, insert_with. by rewrite Hrun.
    + cbn [total_inserted total_failed].
      rewrite counted_total, attempts_batches. f_equal.
      apply batches_concat. lia.
  - destruct (insert_batches_spec supabase 50 jobs w ltac:(lia)) as (w' & Hrun & _).
    eexists w', _. split; [exact Hrun|]. split.
    + unfold Linkedin.insert_to_supabase, act, insert_with. by rewrite Hrun.
    + cbn [total_inserted total_failed].
      rewrite counted_total, attempts_batches. f_equal.
      apply batches_concat. lia.
Qed.

End Insertion.

(** ** The runs *)

(** Unfold the sequencing of world-changing computations. *)
Ltac io_simpl := unfold mbind, io_bind, mret, io_ret, lift, act, try_io.

Section Runs.
Context {RT : Runtime} {OUT : Outside}.
Import Scraper.

Lemma say_files (n : notice) (w : world) : files (say n w) = files w.
Proof. done. Qed.

Lemma report_files (t : tally) (w : world) : files (report t w) = files w.
Proof. unfold report. by destruct (Nat.ltb _ _). Qed.

Lemma insert_with_files (batch_size : nat) (c : client) (jobs : list listing)
    (w : world) :
  files (insert_with batch_size c jobs w) = files w.
Proof.
  unfold insert_with. destruct batch_size as [|n]; [done|].
  destruct (insert_batches_spec c (S n) jobs w ltac:(lia)) as (w' & -> & _ & Hfiles).
  by rewrite report_files.
Qed.

(** What [run] does once deduplication and printing have returned: it
    returns the unique listings, and the JSON file is there whenever the
    file could be written, whatever the remote store answers. *)
Lemma run_stages_completes (self : scraper) (all_jobs unique : list listing)
    (w : world) :
  remove_duplicates all_jobs = Ok unique →
  print_results unique = Ok () →
  ∃ w', run_stages self all_jobs w = (w', Ok unique)
        ∧ (fs_writable "linkedin_jobs.json" = true →
           files w' = <["linkedin_jobs.json" := json_output unique]> (files w)).
Proof.
  intros Hdedup Hprint. unfold run_stages, save_to_json, insert_to_supabase.
  io_simpl. rewrite Hdedup, Hprint. unfold dump_json.
  destruct (fs_writable "linkedin_jobs.json").
  - eexists. split; [reflexivity|]. intros _. by rewrite insert_with_files.
  - destruct (fs_failure "linkedin_jobs.json"); eexists; by split.
Qed.

(** C1. A listing whose title is [None] (the parsers store [None] for a
    field they did not find) makes [run] raise [AttributeError] out of
    [_remove_duplicates], which [run] calls outside any [try]: nothing is
    written and nothing is inserted. *)
Theorem run_raises_on_absent_title (self : scraper)
    (before after : list listing) (job : listing) (w : world) :
  run_stages self (before ++ <["title" := PyNone]> job :: after) w
  = (w, Raise AttributeError).
Proof.
  unfold run_stages, remove_duplicates. io_simpl.
  rewrite dedup_loop_title_none; [done|]. by simplify_map_eq.
Qed.

(** C2. The listing that [_parse_jsearch_job] makes of a record with neither
    title nor company holds [None] in both fields; [_remove_duplicates]
    raises on it instead of returning the empty list. *)
Theorem absent_title_and_company_raise :
  parse_jsearch_job (PyDict ∅) = Some (Demo.titled PyNone PyNone)
  ∧ remove_duplicates [Demo.titled PyNone PyNone] = Raise AttributeError.
Proof. split; reflexivity. Qed.

(** C4. A listing with a company and no title has a key of its own, yet
    [_remove_duplicates] returns nothing for a list that holds it: it
    raises. *)
Theorem absent_title_stops_deduplication (company : pyval)
    (before after : list listing) :
  remove_duplicates (before ++ Demo.titled PyNone company :: after)
  = Raise AttributeError.
Proof. unfold remove_duplicates. by apply dedup_loop_title_none. Qed.



End Runs.

(** ** The statements at concrete inputs *)

Section Concrete.
#[local] Existing Instance ascii_runtime.
#[local] Existing Instance Demo.quiet.

(** Listings with keys k1, k2, k1 (up to case): the first and the second are
    kept, in that order; a listing with empty title and company is left out. *)
Example first_seen_order :
  let a := Demo.titled (PyStr "Data Intern") (PyStr "Acme") in
  let b := Demo.titled (PyStr "ML Intern") (PyStr "Acme") in
  let c := Demo.titled (PyStr "data intern") (PyStr "ACME") in
  let d := Demo.titled (PyStr "") (PyStr "") in
  Scraper.remove_duplicates [a; b; d; c] = Ok [a; b].
Proof. reflexivity. Qed.

(** 120 listings in batches of 50 with the second call refused: three calls
    with 50, 50 and 20 listings, 70 inserted and 50 failed. *)
Example insert_120_by_50 :
  (λ st : world * tally,
     (total_inserted st.2, total_failed st.2, length <$> remote st.1, console st.1))
    <$> insert_batches (OUT := Demo.second_refused) ("url", "key") 50
          (Demo.numbered 120) (Demo.blank (OUT := Demo.second_refused) [])
  = Ok (70, 50, [50; 50; 20],
        [BatchInserted 1 50; BatchFailed 2 (OtherError "refused"); BatchInserted 3 20]).
Proof. vm_compute. reflexivity. Qed.

(** A JSearch record without [job_title], credentials set: the run raises
    and leaves the world as it found it. *)
Example main_raises_on_untitled_record :
  Scraper.main (OUT := Demo.untitled_api) Demo.credentials
    (Demo.blank (OUT := Demo.untitled_api) [])
  = (Demo.blank (OUT := Demo.untitled_api) [], Raise AttributeError).
Proof. vm_compute. reflexivity. Qed.

(** Full records and a remote store that refuses the insert: the run
    returns, the JSON file is written, the listing is counted as failed. *)
Example main_with_remote_down :
  (λ r : world (OUT := Demo.remote_down) * result (),
     (r.2, dom (files r.1), length <$> remote r.1, console r.1))
    (Scraper.main (OUT := Demo.remote_down) Demo.credentials
       (Demo.blank (OUT := Demo.remote_down) []))
  = (Ok (), {["linkedin_jobs.json"]}, [1],
     [SavedTo "linkedin_jobs.json" 1; BatchFailed 1 (OtherError "refused");
      TotalInserted 0; TotalFailed 1]).
Proof. vm_compute. reflexivity. Qed.


Lemma failing_record_is_dropped_witness :
  let record := PyDict (<["job_title" := PyStr "Data Intern"]>
                       (<["job_description" := PyInt 5]> ∅)) in
  Scraper.parse_jsearch_body record = Raise TypeError
  ∧ Scraper.parse_jsearch_job record = None
  ∧ ∀ jobs before after,
      Scraper.collect Scraper.parse_jsearch_job jobs (before ++ record :: after)
      = Scraper.collect Scraper.parse_jsearch_job jobs (before ++ after).
Proof.
  intros record. split; [reflexivity|].
  apply (proj1 (failing_record_is_dropped record) TypeError). reflexivity.
Defined.

Lemma jsearch_location_composition_witness :
  let paris := <["job_city" := PyStr "Paris"]> (<["job_country" := PyStr "France"]> ∅) in
  let city_only := <["job_city" := PyStr "Paris"]> ∅ in
  Scraper.jsearch_location (PyDict paris) = Ok (PyStr "Paris, France")
  ∧ Scraper.jsearch_location (PyDict city_only) = Ok (PyStr "Paris")
  ∧ Scraper.jsearch_location (PyDict ∅) = Ok PyNone.
Proof.
  intros paris city_only. split_and!.
  - destruct (jsearch_location_composition paris) as (location & -> & _ & Hboth & _).
    f_equal. apply Hboth; reflexivity.
  - destruct (jsearch_location_composition city_only) as (location & -> & _ & _ & Hcity & _).
    f_equal. apply Hcity; reflexivity.
  - destruct (jsearch_location_composition ∅) as (location & -> & _ & _ & _ & _ & Hnone).
    f_equal. apply Hnone; reflexivity.
Defined.

(** C7 does not hold of every record: [_parse_active_jobs_db_job] takes
    [location], else [city], and never joins a country to it. *)
Lemma active_jobs_db_location_is_not_composed :
  let record := PyDict (<["city" := PyStr "Paris"]> (<["country" := PyStr "France"]> ∅)) in
  ∃ job, Scraper.parse_active_jobs_db_job record = Some job
         ∧ job !! "location" = Some (PyStr "Paris")
         ∧ job !! "location" ≠ Some (PyStr "Paris, France").
Proof.
  intros record.
  exists (Scraper.make_listing PyNone PyNone PyNone PyNone (PyStr "Paris") PyNone).
  split; [reflexivity|]. split; [reflexivity|]. intros Hjoined.
  vm_compute in Hjoined. discriminate Hjoined.
Qed.

Lemma listings_have_all_six_fields_witness :
  Scraper.parse_jsearch_job (PyDict ∅) = Some (Demo.titled PyNone PyNone)
  ∧ is_Some (Demo.titled PyNone PyNone !! "location").
Proof.
  split; [reflexivity|].
  apply (proj1 listings_have_all_six_fields (PyDict ∅)); [reflexivity|].
  refine (bool_decide_unpack _ _). vm_compute. exact I.
Defined.



End Concrete.

(** * Further properties *)

Set Warnings "-clear-no-such-hyp".

(** ** Fetching *)

Section Fetching.
Context {RT : Runtime} {OUT : Outside}.
Import Scraper.

Lemma collect_from_nil (parse : pyval → option listing) (api_jobs : list pyval) :
  (∀ job_data job, parse job_data = Some job → complete job) →
  ∀ jobs, collect parse jobs api_jobs = jobs ++ collect parse [] api_jobs.
Proof. intros Hc jobs. by rewrite !collect_omap. Qed.

Lemma fetch_jsearch_query_from_nil (self : scraper) (jobs : list listing) (query : string) :
  fetch_jsearch_query self jobs query = jobs ++ fetch_jsearch_query self [] query.
Proof.
  unfold fetch_jsearch_query.
  destruct (http_get _ _ _) as [response|]; result_simpl; [|by rewrite app_nil_r].
  destruct (status_code response =? 200)%Z; result_simpl; [|by rewrite app_nil_r].
  destruct (json response) as [data|]; result_simpl; [|by rewrite app_nil_r].
  destruct (py_get data _ _) as [api_jobs|]; cbn [mbind result_bind try_except];
    [|by rewrite app_nil_r].
  destruct (py_iter api_jobs) as [items|]; result_simpl; [|by rewrite app_nil_r].
  apply collect_from_nil, parse_jsearch_job_complete.
Qed.

(** X1. The listings of the four JSearch queries come one query after the
    other, in the order of the queries; what a query adds does not depend on
    what was collected before it, and nothing collected is ever lost. *)
Theorem fetch_jsearch_jobs_by_query (self : scraper) :
  (∀ jobs query,
     fetch_jsearch_query self jobs query = jobs ++ fetch_jsearch_query self [] query)
  ∧ fetch_jsearch_jobs self = concat (fetch_jsearch_query self [] <$> jsearch_queries).
Proof.
  split; [apply fetch_jsearch_query_from_nil|].
  unfold fetch_jsearch_jobs. generalize jsearch_queries. intros queries.
  assert (∀ jobs, foldl (fetch_jsearch_query self) jobs queries
                  = jobs ++ concat (fetch_jsearch_query self [] <$> queries)) as Hfold.
  { induction queries as [|query queries IH]; intros jobs; simpl.
    - by rewrite app_nil_r.
    - rewrite IH, (fetch_jsearch_query_from_nil self jobs query).
      by rewrite <- app_assoc. }
  apply Hfold.
Qed.

(** X2. A JSearch query that fails, whichever way, leaves the listings
    collected so far as they are: the request raises, the status is not 200,
    the body is not JSON, the JSON is not an object, or its ["data"] cannot
    be iterated. *)
Theorem failed_query_keeps_jobs (self : scraper) (jobs : list listing) (query : string) :
  (∀ e, jsearch_request self query = Raise e →
     fetch_jsearch_query self jobs query = jobs)
  ∧ (∀ response, jsearch_request self query = Ok response →
       status_code response ≠ 200%Z →
       fetch_jsearch_query self jobs query = jobs)
  ∧ (∀ response e, jsearch_request self query = Ok response →
       json response = Raise e →
       fetch_jsearch_query self jobs query = jobs)
  ∧ (∀ response data, jsearch_request self query = Ok response →
       json response = Ok data → (∀ d, data ≠ PyDict d) →
       fetch_jsearch_query self jobs query = jobs)
  ∧ (∀ response d e, jsearch_request self query = Ok response →
       json response = Ok (PyDict d) →
       py_iter (default (PyList []) (d !! "data")) = Raise e →
       fetch_jsearch_query self jobs query = jobs).
Proof.
  unfold jsearch_request, fetch_jsearch_query. split_and!.
  - intros e ->. done.
  - intros response -> Hs. result_simpl.
    apply Z.eqb_neq in Hs. by rewrite Hs.
  - intros response e -> Hj. result_simpl. rewrite Hj.
    by destruct (status_code response =? 200)%Z.
  - intros response data -> Hj Hd. result_simpl. rewrite Hj.
    destruct (status_code response =? 200)%Z; [|done]. result_simpl.
    destruct data; try done. by destruct (Hd d).
  - intros response d e -> Hj Hi. result_simpl. rewrite Hj.
    destruct (status_code response =? 200)%Z; [|done]. result_simpl.
    by rewrite Hi.
Qed.

(** X3. A JSearch query answered with status 200 and a JSON object adds, in
    their order, the listings of the records under ["data"] that the parser
    returns; without a ["data"] key it adds nothing. *)
Theorem successful_query_appends (self : scraper) (jobs : list listing)
    (query : string) (response : response) (d : gmap string pyval) :
  jsearch_request self query = Ok response →
  status_code response = 200%Z →
  json response = Ok (PyDict d) →
  (∀ items, d !! "data" = Some (PyList items) →
     fetch_jsearch_query self jobs query = jobs ++ omap parse_jsearch_job items)
  ∧ (d !! "data" = None → fetch_jsearch_query self jobs query = jobs).
Proof.
  unfold jsearch_request, fetch_jsearch_query. intros -> Hs Hj.
  result_simpl. rewrite Hs, Hj, Z.eqb_refl. result_simpl. split.
  - intros items ->. result_simpl.
    apply collect_omap, parse_jsearch_job_complete.
  - intros ->. done.
Qed.

(** X4. The Active Jobs DB answer is read from ["data"] when that holds a
    non-empty list, and from ["jobs"] when ["data"] is missing, null or
    empty; a request that raises or a status other than 200 gives no
    listing. *)
Theorem active_jobs_db_data_or_jobs (self : scraper) :
  (∀ e, active_jobs_db_request self = Raise e → fetch_active_jobs_db self = [])
  ∧ (∀ response, active_jobs_db_request self = Ok response →
       status_code response ≠ 200%Z → fetch_active_jobs_db self = [])
  ∧ (∀ response d, active_jobs_db_request self = Ok response →
       status_code response = 200%Z → json response = Ok (PyDict d) →
       let by_data := default (PyList []) (d !! "data") in
       let by_jobs := default (PyList []) (d !! "jobs") in
       (∀ items, by_data = PyList items → items ≠ [] →
          fetch_active_jobs_db self = omap parse_active_jobs_db_job items)
       ∧ (truthy by_data = false → ∀ items, by_jobs = PyList items →
          fetch_active_jobs_db self = omap parse_active_jobs_db_job items)).
Proof.
  unfold active_jobs_db_request, fetch_active_jobs_db. split_and!.
  - intros e ->. done.
  - intros response -> Hs. result_simpl. apply Z.eqb_neq in Hs. by rewrite Hs.
  - intros response d -> Hs Hj. result_simpl.
    rewrite Hs, Hj, Z.eqb_refl. result_simpl. split.
    + intros items Hd Hne. rewrite Hd.
      assert (truthy (PyList items) = true) as Ht by (by destruct items).
      unfold py_or. rewrite !Ht. cbn [py_iter]. result_simpl.
      rewrite collect_omap by apply parse_active_jobs_db_job_complete. done.
    + intros Hfalse items Hjobs. unfold py_or at 2. rewrite Hfalse, Hjobs.
      unfold py_or. destruct items as [|item items].
      * done.
      * cbn [truthy length Nat.eqb negb py_iter]. result_simpl.
        rewrite collect_omap by apply parse_active_jobs_db_job_complete. done.
Qed.

End Fetching.

(** ** Parsing one record *)

Section Parsing.
Context {RT : Runtime} {OUT : Outside}.
Import Scraper.

Lemma clean_description_unchanged (description : pyval) :
  truthy description = false ∨ contains_lt description = Ok false →
  clean_description description = Ok description.
Proof.
  unfold clean_description. intros [Hf|Hc].
  - by rewrite Hf.
  - destruct (truthy description); [|done]. by rewrite Hc.
Qed.

Lemma jsearch_location_returns (d : gmap string pyval) :
  ∃ location, jsearch_location (PyDict d) = Ok location.
Proof.
  unfold jsearch_location. result_simpl. repeat case_match; by eexists.
Qed.

Lemma parse_jsearch_job_unchanged (d : gmap string pyval) :
  let field key := default PyNone (d !! key) in
  truthy (field "job_description") = false
  ∨ contains_lt (field "job_description") = Ok false →
  ∃ location,
    jsearch_location (PyDict d) = Ok location
    ∧ parse_jsearch_job (PyDict d)
      = Some (make_listing (field "employer_logo") (field "job_title")
                (field "job_description") (field "employer_name") location
                (if truthy (field "job_apply_link") then field "job_apply_link"
                 else field "job_google_link")).
Proof.
  intros field Hd.
  destruct (jsearch_location_returns d) as (location & Hloc).
  exists location. split; [done|].
  rewrite parse_jsearch_job_returned. unfold parse_jsearch_body.
  rewrite Hloc. result_simpl. fold (field "job_description").
  rewrite (clean_description_unchanged _ Hd). result_simpl. done.
Qed.

(** X5. A JSearch record (a JSON object) whose description is empty, null
    or missing, or holds no ["<"], is always extracted, and the cleaner is
    not asked: logo, title, description and company are the values of
    [employer_logo], [job_title], [job_description] and [employer_name]
    as they are ([None] for a missing key), and the URL is the apply link
    unless that is empty or missing, then the Google link. *)
Theorem jsearch_record_without_markup (d : gmap string pyval) :
  let field key := default PyNone (d !! key) in
  truthy (field "job_description") = false
  ∨ contains_lt (field "job_description") = Ok false →
  ∃ location,
    jsearch_location (PyDict d) = Ok location
    ∧ parse_jsearch_job (PyDict d)
      = Some (make_listing (field "employer_logo") (field "job_title")
                (field "job_description") (field "employer_name") location
                (if truthy (field "job_apply_link") then field "job_apply_link"
                 else field "job_google_link")).
Proof. apply parse_jsearch_job_unchanged. Qed.

Lemma clean_description_raise (description : pyval) (e : exn) :
  clean_description description = Raise e ↔
  truthy description = true
  ∧ (contains_lt description = Raise e
     ∨ (contains_lt description = Ok true ∧ soup_get_text description = Raise e)).
Proof.
  unfold clean_description.
  destruct (truthy description); [|naive_solver].
  destruct (contains_lt description) as [[]|e']; result_simpl.
  - destruct (soup_get_text description); result_simpl; naive_solver.
  - naive_solver.
  - naive_solver.
Qed.

(** X6. The two parsers drop a record in exactly two cases: the record is
    not a JSON object, or cleaning its description raises; and cleaning
    raises exactly when the description is a non-empty value on which the
    test [["<" in description]] raises (a number, [True]) or which holds a
    ["<"] and makes the cleaner raise. *)
Theorem record_dropped_exactly_when (job_data : pyval) :
  (parse_jsearch_job job_data = None ↔
     (∀ d, job_data ≠ PyDict d)
     ∨ ∃ d e, job_data = PyDict d
              ∧ clean_description (default PyNone (d !! "job_description")) = Raise e)
  ∧ (parse_active_jobs_db_job job_data = None ↔
       (∀ d, job_data ≠ PyDict d)
       ∨ ∃ d e, job_data = PyDict d
                ∧ clean_description (default PyNone (d !! "description")) = Raise e)
  ∧ (∀ description e,
       clean_description description = Raise e ↔
       truthy description = true
       ∧ (contains_lt description = Raise e
          ∨ (contains_lt description = Ok true
             ∧ soup_get_text description = Raise e))).
Proof.
  split_and!; [| |apply clean_description_raise].
  - rewrite parse_jsearch_job_returned. unfold parse_jsearch_body.
    destruct job_data as [| | | | | |d]; try (split; [by left|done]).
    destruct (jsearch_location_returns d) as (location & Hloc).
    rewrite Hloc. result_simpl.
    destruct (clean_description _) as [description|e] eqn:Hc; result_simpl.
    + split; [done|]. intros [Hd|(d' & e & [= <-] & He)]; [by destruct (Hd d)|].
      congruence.
    + split; [|done]. intros _. right. by exists d, e.
  - rewrite parse_active_jobs_db_job_returned. unfold parse_active_jobs_db_body.
    destruct job_data as [| | | | | |d]; try (split; [by left|done]).
    result_simpl.
    destruct (clean_description _) as [description|e] eqn:Hc; result_simpl.
    + split; [done|]. intros [Hd|(d' & e & [= <-] & He)]; [by destruct (Hd d)|].
      congruence.
    + split; [|done]. intros _. right. by exists d, e.
Qed.

Lemma first_truthy_spec (values : list pyval) (v : pyval) :
  values ≠ [] → first_truthy values = v →
  (truthy v = true
   ∧ ∃ i, values !! i = Some v
          ∧ ∀ j u, j < i → values !! j = Some u → truthy u = false)
  ∨ (truthy v = false
     ∧ (∀ u, u ∈ values → truthy u = false)
     ∧ last values = Some v).
Proof.
  induction values as [|u values IH]; [done|]. intros _ Hv.
  destruct values as [|u' values].
  { simpl in Hv. subst u. destruct (truthy v) eqn:Ht.
    - left. split; [done|]. exists 0. split; [done|]. intros j u Hj. lia.
    - right. split; [done|]. split; [|done].
      intros u Hu. apply list_elem_of_singleton in Hu. by subst. }
  cbn [first_truthy] in Hv. destruct (truthy u) eqn:Hu.
  - subst u. left. split; [done|]. exists 0. split; [done|]. intros j u Hj. lia.
  - destruct (IH ltac:(done) Hv) as [(Ht & i & Hi & Hbefore)|(Ht & Hall & Hlast)].
    + left. split; [done|]. exists (S i). split; [done|].
      intros [|j] w Hj Hw; simpl in Hw.
      * by injection Hw as <-.
      * eapply Hbefore; [|done]. lia.
    + right. split; [done|]. split.
      * intros w Hw. apply elem_of_cons in Hw as [->|Hw]; [done|by apply Hall].
      * by rewrite last_cons, Hlast.
Qed.

Lemma py_or_first_truthy2 (a b : pyval) : py_or a b = first_truthy [a; b].
Proof. done. Qed.

Lemma py_or_first_truthy3 (a b c : pyval) :
  py_or (py_or a b) c = first_truthy [a; b; c].
Proof.
  unfold py_or. cbn [first_truthy].
  destruct (truthy a) eqn:Ha; [by rewrite Ha|].
  by destruct (truthy b) eqn:Hb; rewrite ?Hb.
Qed.

Lemma parse_active_jobs_db_job_fields (d : gmap string pyval) (job : listing) :
  parse_active_jobs_db_job (PyDict d) = Some job →
  ∀ field keys, (field, keys) ∈ active_jobs_db_candidates →
  keys ≠ [] ∧
  job !! field = Some (first_truthy ((λ key, default PyNone (d !! key)) <$> keys)).
Proof.
  rewrite parse_active_jobs_db_job_returned. unfold parse_active_jobs_db_body.
  result_simpl.
  destruct (clean_description _) as [description|e]; result_simpl; [|done].
  intros [= <-] field keys Hin. unfold active_jobs_db_candidates in Hin.
  unfold make_listing. rewrite !py_or_first_truthy3, !py_or_first_truthy2.
  repeat (apply elem_of_cons in Hin as [[= -> ->]|Hin];
          [split; [done|]; by simplify_map_eq|]).
  by apply elem_of_nil in Hin.
Qed.

(** X7. In a listing of the Active Jobs DB parser each field other than the
    description comes from the first of its candidate keys, in the order of
    the source, whose value is not empty (not [None], [""], [0], ...); when
    no candidate has such a value the field holds the value of the last
    candidate, which is [None] if that key is missing but can be an empty
    string. *)
Theorem active_jobs_db_first_candidate (d : gmap string pyval) (job : listing)
    (field : string) (keys : list string) :
  parse_active_jobs_db_job (PyDict d) = Some job →
  (field, keys) ∈ active_jobs_db_candidates →
  ∃ v, job !! field = Some v ∧ chosen_from d keys v.
Proof.
  intros Hparse Hin. set (value key := default PyNone (d !! key)).
  destruct (parse_active_jobs_db_job_fields d job Hparse field keys Hin) as [Hne Hjob].
  eexists. split; [exact Hjob|]. unfold chosen_from. fold value.
  destruct (first_truthy_spec (value <$> keys) _ ltac:(by destruct keys) eq_refl)
    as [(Ht & i & Hi & Hbefore)|(Ht & Hall & Hlast)].
  - left. split; [done|].
    apply list_lookup_fmap_Some in Hi as (key & Hkey & Hi).
    exists i, key. split_and!; [done..|].
    intros j key' Hj Hkey'. apply (Hbefore j); [done|].
    by rewrite list_lookup_fmap, Hkey'.
  - right. split; [done|]. split.
    + intros key Hkey. apply Hall. by apply (list_elem_of_fmap_2 value).
    + rewrite fmap_last in Hlast.
      destruct (last keys) as [key|]; [|done]. injection Hlast as Hlast.
      by exists key.
Qed.

End Parsing.

(** ** Deduplication, further *)

Section Deduplication.
Context {RT : Runtime}.
Import Scraper.

Lemma dedup_key_keyed (job : listing) :
  keyed job ↔ is_Some (returned (dedup_key job)).
Proof.
  unfold keyed, text_or_missing, dedup_key, py_lower.
  destruct (job !! "title") as [[]|]; destruct (job !! "company") as [[]|];
    cbn; split; (intros [? ?] || intros ?); (done || by eexists).
Qed.

Lemma dedup_loop_keyed (jobs : list listing) :
  ∀ seen acc out, dedup_loop jobs seen acc = Ok out → Forall keyed jobs.
Proof.
  induction jobs as [|job rest IH]; intros seen acc out; simpl; [by constructor|].
  destruct (dedup_key job) as [key|] eqn:Hkey; result_simpl; [|done].
  intros Hout. constructor.
  - apply dedup_key_keyed. rewrite Hkey. by eexists.
  - destruct (_ && _); by eapply IH.
Qed.

(** X8. [_remove_duplicates] returns exactly on the lists in which every
    title and every company is a string or a missing key; on any other list
    (a [None], a number, a list in one of the two fields of one listing) it
    raises [AttributeError]. *)
Theorem remove_duplicates_returns_iff (jobs : list listing) :
  (Forall keyed jobs → ∃ out, remove_duplicates jobs = Ok out)
  ∧ (¬ Forall keyed jobs → remove_duplicates jobs = Raise AttributeError).
Proof.
  unfold remove_duplicates. split.
  - intros Hk.
    assert (Forall (λ job, is_Some (returned (dedup_key job))) jobs) as Hk'.
    { eapply Forall_impl; [exact Hk|]. intros job. apply dedup_key_keyed. }
    destruct (dedup_loop_returns jobs Hk' ∅ []) as [out Hout].
    destruct (dedup_loop jobs ∅ []) as [out'|]; [by exists out'|done].
  - intros Hk. destruct (dedup_loop jobs ∅ []) as [out|e] eqn:Hrun.
    + destruct Hk. by eapply dedup_loop_keyed.
    + by rewrite (dedup_loop_raise _ _ _ _ Hrun).
Qed.

Lemma fresh_lookup (out : list listing) :
  ∀ seen, fresh seen out →
  ∀ i a, out !! i = Some a →
  ∃ key, dedup_key a = Ok key ∧ (key ∉ seen) ∧ (key ≠ "_")
         ∧ ∀ j b, i < j → out !! j = Some b → dedup_key b ≠ Ok key.
Proof.
  induction out as [|first out IH]; intros seen Hfresh i a Hi; [done|].
  destruct Hfresh as (key & Hkey & Hnew & Hsep & Hrest).
  destruct i as [|i]; simpl in Hi.
  - injection Hi as <-. exists key. split_and!; [done..|].
    intros [|j] b Hj Hb; [lia|]. simpl in Hb.
    destruct (IH _ Hrest j b Hb) as (kb & Hkb & Hnotin & _).
    rewrite Hkb. intros [= ->]. apply Hnotin. apply elem_of_union_l.
    by apply elem_of_singleton.
  - destruct (IH _ Hrest i a Hi) as (ka & Hka & Hnotin & Hsepa & Hlater).
    exists ka. split_and!; [done| |done|].
    + intros Hin. apply Hnotin. by apply elem_of_union_r.
    + intros [|j] b Hj Hb; [lia|]. simpl in Hb. eapply Hlater; [|done]. lia.
Qed.

(** X9. What [_remove_duplicates] returns never holds two listings with the
    same key, never a listing whose key is the bare separator, and never
    more listings than it was given; with a [lower] that keeps the empty
    string empty, a listing whose title and company are each empty or
    missing is therefore never in the result. *)
Theorem deduplicated_keys_distinct (jobs out : list listing) :
  remove_duplicates jobs = Ok out →
  (∀ i j a b, out !! i = Some a → out !! j = Some b → i ≠ j →
     dedup_key a ≠ dedup_key b)
  ∧ (∀ job, job ∈ out → dedup_key job ≠ Ok "_")
  ∧ length out ≤ length jobs
  ∧ (str_lower "" = "" → ∀ job, job ∈ out → ¬ degenerate job).
Proof.
  unfold remove_duplicates. intros Hrun.
  destruct (dedup_loop_kept _ _ _ _ Hrun) as (kept & -> & Hfresh & Hsub).
  simpl. clear Hrun.
  assert (∀ job, job ∈ kept → dedup_key job ≠ Ok "_") as Hsep.
  { intros job Hin. apply list_elem_of_lookup in Hin as [i Hi].
    destruct (fresh_lookup _ _ Hfresh i job Hi) as (key & -> & _ & Hne & _).
    congruence. }
  split_and!.
  - intros i j a b Hi Hj Hij.
    destruct (fresh_lookup _ _ Hfresh i a Hi) as (ka & Hka & _ & _ & Hafter).
    destruct (fresh_lookup _ _ Hfresh j b Hj) as (kb & Hkb & _ & _ & Hbefore).
    destruct (decide (i < j)).
    + rewrite Hka. intros Heq. by eapply (Hafter j b).
    + rewrite Hkb. intros Heq. eapply (Hbefore i a); [lia|done..].
  - exact Hsep.
  - by apply sublist_length.
  - intros Hlower job Hin [Ht Hc]. apply (Hsep job Hin).
    unfold dedup_key, py_lower.
    destruct Ht as [-> | ->], Hc as [-> | ->]; cbn; by rewrite Hlower.
Qed.

(** X24. On a list in which every title and every company is a string or a
    missing key, [_remove_duplicates] returns a sublist of its input (same
    listings, same order) that holds, for every key other than the bare
    separator, the first listing of the input with that key. *)
Theorem first_listing_of_each_key_is_kept (jobs : list listing) :
  Forall keyed jobs →
  ∃ out, remove_duplicates jobs = Ok out
         ∧ sublist out jobs
         ∧ ∀ before job after key,
             jobs = before ++ job :: after →
             dedup_key job = Ok key → key ≠ "_" →
             (∀ earlier, earlier ∈ before → dedup_key earlier ≠ Ok key) →
             job ∈ out.
Proof.
  intros Hk.
  assert (Forall (λ job, is_Some (returned (dedup_key job))) jobs) as Hk'.
  { eapply Forall_impl; [exact Hk|]. intros job. apply dedup_key_keyed. }
  destruct (remove_duplicates_first_wins jobs Hk') as (out & Hout & Hsub & _ & Hfirst).
  by exists out.
Qed.

End Deduplication.

(** ** Printing and the sinks *)

Section Sinks.
Context {RT : Runtime} {OUT : Outside}.
Import Scraper.

Lemma print_job_printable (job : listing) :
  print_job job
  = let description := default (PyStr "N/A") (job !! "description") in
    if printable description then Ok ()
    else Raise (match description with
                | PyDict _ => dict_slice_error
                | _ => TypeError
                end).
Proof.
  unfold print_job, printable. cbn zeta.
  destruct (default (PyStr "N/A") (job !! "description")) as [|b|n|bits|s|l|d];
    cbn [truthy is_str py_len]; result_simpl.
  - done.
  - by destruct b.
  - by destruct (negb (n =? 0)%Z).
  - by destruct (negb _).
  - rewrite orb_true_r. destruct (_ && _); [|done].
    result_simpl. by destruct (Nat.ltb _ _).
  - rewrite andb_true_r. destruct (negb (Nat.eqb (length l) 0)); [|done].
    result_simpl. cbn [negb orb].
    destruct (Nat.ltb_spec 150 (length l)), (Nat.leb_spec (length l) 150);
      (done || lia).
  - rewrite andb_true_r. destruct (negb (Nat.eqb (size d) 0)); [|done].
    result_simpl. cbn [negb orb].
    destruct (Nat.ltb_spec 150 (size d)), (Nat.leb_spec (size d) 150);
      (done || lia).
Qed.

Lemma mapM_print_job (jobs : list listing) (units : list unit) :
  mapM print_job jobs = Ok units →
  Forall (λ job, printable (default (PyStr "N/A") (job !! "description")) = true) jobs.
Proof.
  revert units. induction jobs as [|job jobs IH]; intros units; simpl.
  - constructor.
  - rewrite print_job_printable. cbn zeta.
    destruct (printable _) eqn:Hp; result_simpl; [|done].
    destruct (mapM print_job jobs) as [rest|e]; result_simpl; [|done].
    intros _. constructor; [done|]. by apply (IH rest).
Qed.

(** X10. [_print_results] cannot return unless the description of each of
    the first ten listings is empty, [None] or missing, a string, or a list
    or dict of at most 150 items: a number, [True], a longer list or a
    longer dict makes it raise. Whether it returns, and what it raises,
    depends on the first ten listings only. *)
Theorem print_results_returns_only_if (jobs : list listing) :
  let shown := take 10 jobs in
  let fine job := printable (default (PyStr "N/A") (job !! "description")) = true in
  (print_results jobs = Ok () → Forall fine shown)
  ∧ print_results jobs = print_results shown.
Proof.
  intros shown fine. unfold print_results, py_slice.
  rewrite !drop_0, !Nat.sub_0_r. fold shown. split.
  - destruct (mapM print_job shown) as [units|e] eqn:Hshown; [|done].
    intros _. by apply (mapM_print_job shown units).
  - subst shown. by rewrite take_take, Nat.min_id.
Qed.


Lemma save_to_json_spec (jobs : list listing) (filename : string) (w : world) :
  save_to_json jobs filename w
  = if fs_writable filename
    then (say (SavedTo filename (length jobs))
            (write_file filename (json_output jobs) w), Ok ())
    else match fs_failure filename with
         | AtOpen e => (say (SaveError e) w, Ok ())
         | AfterOpen e => (say (SaveError e) (tear_file filename w), Ok ())
         end.
Proof.
  unfold save_to_json, dump_json. io_simpl.
  destruct (fs_writable filename); [done|]. by destruct (fs_failure filename).
Qed.

Lemma save_to_json_returns (jobs : list listing) (filename : string) (w : world) :
  (save_to_json jobs filename w).2 = Ok ()
  ∧ remote (save_to_json jobs filename w).1 = remote w.
Proof.
  rewrite save_to_json_spec.
  destruct (fs_writable filename); [done|]. by destruct (fs_failure filename).
Qed.

(** X11. [_save_to_json] never raises, never touches the remote store and
    leaves every other file as it was. When the file can be written it
    holds, replacing what was there, a document whose ["jobs"] array is the
    listings given, in their order, and whose [metadata.total_jobs] is
    their number. When it cannot, the error is printed, and the file is as
    it was if [open] raised, but has lost what it held if the failure came
    after [open] had emptied it. *)
Theorem save_to_json_writes_or_reports (jobs : list listing) (filename : string)
    (w : world) :
  ∃ w', save_to_json jobs filename w = (w', Ok ())
        ∧ remote w' = remote w
        ∧ (∀ other, other ≠ filename → files w' !! other = files w !! other)
        ∧ (fs_writable filename = true →
             (∃ metadata,
                files w' = <[filename :=
                               PyDict (<["metadata" := PyDict metadata]>
                                      (<["jobs" := PyList (PyDict <$> jobs)]> ∅))]>
                             (files w)
                ∧ metadata !! "total_jobs" = Some (PyInt (Z.of_nat (length jobs))))
             ∧ console w' = console w ++ [SavedTo filename (length jobs)])
        ∧ (fs_writable filename = false →
             ∀ e,
               (fs_failure filename = AtOpen e →
                  files w' = files w ∧ torn w' = torn w
                  ∧ console w' = console w ++ [SaveError e])
               ∧ (fs_failure filename = AfterOpen e →
                    files w' !! filename = None ∧ filename ∈ torn w'
                    ∧ console w' = console w ++ [SaveError e])).
Proof.
  rewrite save_to_json_spec.
  destruct (fs_writable filename); [|destruct (fs_failure filename) as [e'|e']];
    eexists; (split; [reflexivity|]); (split; [done|]).
  - split; [by intros other Hother; simpl; rewrite lookup_insert_ne|].
    split; [|done]. intros _. split; [|done].
    eexists. split; [reflexivity|]. by simplify_map_eq.
  - split; [done|]. split; [done|]. intros _ e. split; [|done].
    by intros [= ->].
  - split; [by intros other Hother; simpl; rewrite lookup_delete_ne|].
    split; [done|]. intros _ e. split; [done|]. intros [= ->]. simpl.
    split; [apply lookup_delete_eq|]. split; [|done].
    apply elem_of_union_l, elem_of_singleton. done.
Qed.

Lemma run_stages_inv (self : scraper) (all_jobs jobs : list listing) (w w' : world) :
  run_stages self all_jobs w = (w', Ok jobs) →
  remove_duplicates all_jobs = Ok jobs
  ∧ print_results jobs = Ok ()
  ∧ w' = insert_with 100 (supabase self) jobs
           (save_to_json jobs "linkedin_jobs.json" w).1.
Proof.
  unfold run_stages, insert_to_supabase. io_simpl.
  destruct (remove_duplicates all_jobs) as [unique|]; [|done].
  destruct (print_results unique) as [[]|] eqn:Hprint; [|done].
  pose proof (save_to_json_returns unique "linkedin_jobs.json" w) as [Hsaved _].
  destruct (save_to_json unique "linkedin_jobs.json" w) as [w1 r] eqn:Hsave.
  simpl in Hsaved. subst r.
  intros [= <- <-]. by rewrite Hsave.
Qed.

Lemma insert_step_torn (c : client) (batch_size : nat) (jobs : list listing)
    (st : world * tally) (i : nat) :
  torn (insert_step c batch_size jobs st i).1 = torn st.1.
Proof. unfold insert_step. by destruct (table_insert _ _ _) as [r [[]|e]]. Qed.

Lemma insert_with_torn (batch_size : nat) (c : client) (jobs : list listing)
    (w : world) :
  torn (insert_with batch_size c jobs w) = torn w.
Proof.
  unfold insert_with, insert_batches.
  destruct (py_range0 (length jobs) batch_size) as [starts|e]; result_simpl; [|done].
  set (st0 := (w, {| total_inserted := 0; total_failed := 0 |})).
  assert (∀ st, torn (foldl (insert_step c batch_size jobs) st starts).1 = torn st.1)
    as Hfold.
  { induction starts as [|i starts IH]; intros st; [done|].
    cbn [foldl]. by rewrite IH, insert_step_torn. }
  specialize (Hfold st0).
  destruct (foldl _ st0 starts) as [w1 t]. simpl in Hfold.
  unfold report. by destruct (Nat.ltb _ _).
Qed.

(** X12. When [run] returns, what it returns is the deduplicated list, and
    the file [linkedin_jobs.json], if it could be written, holds exactly
    these listings with [metadata.total_jobs] equal to their number. If it
    could not be written, every other file is as it was, and this one is as
    it was when [open] raised, but has lost what it held when the failure
    came after [open] had emptied it. *)
Theorem run_writes_what_it_returns (self : scraper) (all_jobs jobs : list listing)
    (w w' : world) :
  run_stages self all_jobs w = (w', Ok jobs) →
  remove_duplicates all_jobs = Ok jobs
  ∧ (fs_writable "linkedin_jobs.json" = true →
       ∃ metadata,
         files w' !! "linkedin_jobs.json"
         = Some (PyDict (<["metadata" := PyDict metadata]>
                        (<["jobs" := PyList (PyDict <$> jobs)]> ∅)))
         ∧ metadata !! "total_jobs" = Some (PyInt (Z.of_nat (length jobs))))
  ∧ (fs_writable "linkedin_jobs.json" = false →
       (∀ other, other ≠ "linkedin_jobs.json" → files w' !! other = files w !! other)
       ∧ ∀ e,
           (fs_failure "linkedin_jobs.json" = AtOpen e →
              files w' = files w ∧ torn w' = torn w)
           ∧ (fs_failure "linkedin_jobs.json" = AfterOpen e →
                files w' !! "linkedin_jobs.json" = None
                ∧ "linkedin_jobs.json" ∈ torn w')).
Proof.
  intros Hrun. destruct (run_stages_inv _ _ _ _ _ Hrun) as (Hdedup & _ & ->).
  split; [done|]. rewrite insert_with_files, insert_with_torn, save_to_json_spec.
  destruct (fs_writable _); [|destruct (fs_failure _) as [e'|e']];
    (split; [|intros Hw]); try done.
  - intros _. eexists. simpl. rewrite lookup_insert_eq. split; [reflexivity|].
    by simplify_map_eq.
  - split; [by intros other Hother; simpl; rewrite lookup_delete_ne|].
    intros e. split; [done|]. intros [= ->]. simpl.
    split; [apply lookup_delete_eq|]. apply elem_of_union_l, elem_of_singleton. done.
Qed.

(** X13. In [run] the remote insertion does not depend on the file: whether
    or not the JSON file could be written, the returned listings are sent
    to the remote store in batches of 100, in their order. *)
Theorem run_inserts_what_it_returns (self : scraper) (all_jobs jobs : list listing)
    (w w' : world) :
  run_stages self all_jobs w = (w', Ok jobs) →
  remote w' = remote_after (supabase self) (remote w) (batches 100 jobs)
  ∧ concat (batches 100 jobs) = jobs.
Proof.
  intros Hrun. destruct (run_stages_inv _ _ _ _ _ Hrun) as (_ & _ & ->).
  split; [|apply batches_concat; lia].
  unfold insert_with.
  destruct (insert_batches_spec (supabase self) 100 jobs
              (save_to_json jobs "linkedin_jobs.json" w).1 ltac:(lia))
    as (w1 & -> & Hremote & _).
  unfold report. rewrite (proj2 (save_to_json_returns _ _ _)) in Hremote.
  by destruct (Nat.ltb _ _); simpl; rewrite Hremote.
Qed.


Lemma insert_step_console (c : client) (batch_size : nat) (jobs : list listing)
    (st : world * tally) (i : nat) :
  let batch := py_slice jobs i (i + batch_size) in
  let o := table_insert c (remote st.1) batch in
  console (insert_step c batch_size jobs st i).1
  = console st.1 ++ [match o.2 with
                     | Ok _ => BatchInserted (i / batch_size + 1) (length batch)
                     | Raise e => BatchFailed (i / batch_size + 1) e
                     end].
Proof.
  intros batch o. unfold insert_step. fold batch. fold o.
  by destruct o as [r [[]|e]].
Qed.

Lemma insert_fold_console (c : client) (batch_size : nat) (jobs : list listing)
    (n : nat) :
  0 < batch_size →
  ∀ (start : nat) (st : world * tally),
  let slice k := py_slice jobs (k * batch_size) (k * batch_size + batch_size) in
  console (foldl (insert_step c batch_size jobs) st
             ((λ k, k * batch_size) <$> seq start n)).1
  = console st.1 ++ batch_notices c (remote st.1) (S start) (slice <$> seq start n).
Proof.
  intros Hpos. induction n as [|n IH]; intros start st slice.
  - simpl. by rewrite app_nil_r.
  - cbn [seq]. rewrite !fmap_cons. cbn [foldl batch_notices].
    destruct (insert_step_spec c batch_size jobs st (start * batch_size))
      as (_ & _ & Hr & _).
    pose proof (insert_step_console c batch_size jobs st (start * batch_size)) as Hc.
    cbn zeta in Hc, Hr.
    set (st1 := insert_step c batch_size jobs st (start * batch_size)) in *.
    specialize (IH (S start) st1). cbn zeta in IH.
    rewrite IH, Hc, Hr.
    rewrite Nat.div_mul by lia. rewrite Nat.add_1_r.
    by rewrite <- app_assoc.
Qed.

(** X15. What the remote insert prints: one line per batch, numbered from 1
    in the order the batches are sent, saying how many listings went in or
    which error came back; then the total inserted; and the total failed
    only when it is not zero. *)
Theorem insert_report (batch_size : nat) (c : client) (jobs : list listing)
    (w : world) :
  0 < batch_size →
  let sent := batches batch_size jobs in
  let calls := attempts c (remote w) sent in
  console (insert_with batch_size c jobs w)
  = console w ++ batch_notices c (remote w) 1 sent
    ++ TotalInserted (counted true calls)
       :: (if Nat.ltb 0 (counted false calls)
           then [TotalFailed (counted false calls)] else []).
Proof.
  intros Hpos sent calls. unfold insert_with.
  destruct (insert_batches_spec c batch_size jobs w Hpos) as (w' & Hrun & _).
  rewrite Hrun.
  assert (console w' = console w ++ batch_notices c (remote w) 1 sent) as Hc.
  { unfold insert_batches, py_range0 in Hrun.
    destruct batch_size as [|m]; [lia|]. result_simpl.
    injection Hrun as Hw'. apply (f_equal fst) in Hw'. simpl in Hw'.
    rewrite <- Hw'.
    by rewrite (insert_fold_console c (S m) jobs _ ltac:(lia) 0). }
  unfold report. cbn [total_inserted total_failed]. subst calls sent.
  destruct (Nat.ltb 0 _); simpl; rewrite Hc; by rewrite <- !app_assoc.
Qed.

(** X16. With no listing to insert neither copy of the loop calls the remote
    store: the state of the store is unchanged and the only line printed is
    a total of 0 inserted. *)
Theorem nothing_to_insert (self : scraper) (supabase : client) (w : world) :
  insert_to_supabase self [] w = (say (TotalInserted 0) w, Ok ())
  ∧ Linkedin.insert_to_supabase supabase [] w = (say (TotalInserted 0) w, Ok ()).
Proof. split; reflexivity. Qed.

(** X17. Every listing that [run] returns has all six fields and is one of
    the listings fetched, JSearch first, in their order of arrival; and
    deduplicating the returned list again changes nothing. *)
Theorem run_returns_fetched_listings (self : scraper) (w w' : world)
    (jobs : list listing) :
  run self w = (w', Ok jobs) →
  Forall complete jobs
  ∧ sublist jobs (fetch_jsearch_jobs self ++ fetch_active_jobs_db self)
  ∧ remove_duplicates jobs = Ok jobs.
Proof.
  unfold run. intros Hrun.
  destruct (run_stages_inv _ _ _ _ _ Hrun) as (Hdedup & _ & _).
  unfold remove_duplicates in *.
  destruct (dedup_loop_kept _ _ _ _ Hdedup) as (kept & -> & Hfresh & Hsub).
  simpl in *. split_and!.
  - apply Forall_forall. intros job Hin.
    assert (Forall complete (fetch_jsearch_jobs self ++ fetch_active_jobs_db self))
      as Hall.
    { apply Forall_app. split;
        [apply fetch_jsearch_jobs_complete|apply fetch_active_jobs_db_complete]. }
    rewrite Forall_forall in Hall. apply Hall. by eapply elem_of_sublist.
  - done.
  - by apply (dedup_loop_fresh kept ∅ []).
Qed.

End Sinks.

(** ** linkedin.py, further *)

Section LinkedinRun.
Context {RT : Runtime} {OUT : Outside}.
Import Linkedin.

Lemma scrape_field_insert (key : string) (lookup : result pyval) (job_data : listing) :
  job_data !! key = Some (PyStr "-") →
  scrape_field key lookup job_data = <[key := or_dash lookup]> job_data.
Proof.
  intros Hdash. unfold scrape_field, or_dash.
  destruct lookup; result_simpl; [done|]. symmetry. by apply insert_id.
Qed.

Lemma scrape_item_listing (job_item : job_item) (job_card : card) :
  item_card job_item = Ok job_card →
  scrape_item job_item
  = Ok (Scraper.make_listing
          (or_dash (logo_src job_card))
          (or_dash (stripped (title_text job_card)))
          (PyStr "Job description not available in list view")
          (or_dash (stripped (company_text job_card)))
          (or_dash (stripped (location_text job_card)))
          (or_dash (link_href job_card))).
Proof.
  intros Hcard. unfold scrape_item. rewrite Hcard. result_simpl. f_equal.
  rewrite (scrape_field_insert "logo") by done.
  rewrite (scrape_field_insert "title") by done.
  rewrite (scrape_field_insert "company") by done.
  rewrite (scrape_field_insert "location") by done.
  rewrite (scrape_field_insert "url") by done.
  unfold initial_job_data, Scraper.make_listing.
  apply map_eq. intros key.
  destruct (decide (key = "logo")) as [->|]; [by simplify_map_eq|].
  destruct (decide (key = "title")) as [->|]; [by simplify_map_eq|].
  destruct (decide (key = "description")) as [->|]; [by simplify_map_eq|].
  destruct (decide (key = "company")) as [->|]; [by simplify_map_eq|].
  destruct (decide (key = "location")) as [->|]; [by simplify_map_eq|].
  destruct (decide (key = "url")) as [->|]; [by simplify_map_eq|].
  by simplify_map_eq.
Qed.

Lemma or_dash_truthy (lookup : result pyval) : truthy (or_dash lookup) = true.
Proof.
  unfold or_dash. destruct lookup as [value|]; [|done].
  by destruct (truthy value) eqn:Hv.
Qed.

(** X18. The item scraper of linkedin.py fails only when the card element
    of the item is not found. Otherwise it returns a listing in which each
    of logo, title, company, location and URL is the value found (the text
    stripped) when the lookup succeeded with a non-empty value and ["-"]
    when the lookup raised or gave nothing, and the description is always
    the same placeholder text. *)
Theorem scrape_item_fields (job_item : job_item) :
  (∀ e, item_card job_item = Raise e → scrape_item job_item = Raise e)
  ∧ (∀ job_card, item_card job_item = Ok job_card →
       scrape_item job_item
       = Ok (Scraper.make_listing
               (or_dash (logo_src job_card))
               (or_dash (stripped (title_text job_card)))
               (PyStr "Job description not available in list view")
               (or_dash (stripped (company_text job_card)))
               (or_dash (stripped (location_text job_card)))
               (or_dash (link_href job_card)))).
Proof.
  split.
  - intros e He. unfold scrape_item. by rewrite He.
  - apply scrape_item_listing.
Qed.

(** X19. No field of a LinkedIn listing is ever missing, [None] or empty:
    all six keys are there and every value is truthy. *)
Theorem linkedin_fields_never_empty (job_item : job_item) (job : listing)
    (field : string) :
  scrape_item job_item = Ok job →
  field ∈ fields →
  ∃ value, job !! field = Some value ∧ truthy value = true.
Proof.
  intros Hitem Hfield.
  destruct (item_card job_item) as [job_card|e] eqn:Hcard.
  2: { unfold scrape_item in Hitem. by rewrite Hcard in Hitem. }
  rewrite (scrape_item_listing _ _ Hcard) in Hitem. injection Hitem as <-.
  unfold fields in Hfield. unfold Scraper.make_listing.
  repeat (apply elem_of_cons in Hfield as [->|Hfield];
          [eexists; split; [by simplify_map_eq|]; by rewrite ?or_dash_truthy|]).
  by apply elem_of_nil in Hfield.
Qed.

Lemma scrape_items_from (job_items : list job_item) :
  ∀ scraped_jobs,
  foldl scrape_step scraped_jobs job_items
  = scraped_jobs ++ omap (λ job_item, returned (scrape_item job_item)) job_items.
Proof.
  induction job_items as [|job_item rest IH]; intros scraped_jobs; simpl.
  - by rewrite app_nil_r.
  - rewrite IH. unfold scrape_step.
    destruct (scrape_item job_item); result_simpl; [|done].
    by rewrite <- app_assoc.
Qed.

(** X20. The page loop of linkedin.py gives one listing for each item whose
    card is found, in the order of the page; an item whose card is not
    found is skipped and the items after it are still scraped. Duplicates
    are kept: this path does not deduplicate. *)
Theorem scrape_items_one_per_card (job_items : list job_item) :
  scrape_items job_items
  = omap (λ job_item, returned (scrape_item job_item)) job_items
  ∧ length (scrape_items job_items)
    = length (filter (λ job_item, is_Some (returned (item_card job_item))) job_items).
Proof.
  assert (scrape_items job_items
          = omap (λ job_item, returned (scrape_item job_item)) job_items) as Heq.
  { unfold scrape_items. by rewrite scrape_items_from. }
  split; [done|]. rewrite Heq. clear Heq.
  induction job_items as [|job_item rest IH]; [done|].
  cbn [omap list_omap]. rewrite filter_cons.
  destruct (item_card job_item) as [job_card|e] eqn:Hcard.
  - rewrite (scrape_item_listing _ _ Hcard). simpl. by rewrite IH.
  - unfold scrape_item at 1. rewrite Hcard. simpl. done.
Qed.

Lemma connect_set (environ : gmap string string) (c : client) (w : world) :
  unset (getenv environ "SUPABASE_URL") || unset (getenv environ "SUPABASE_KEY") = false →
  create_client (default "" (getenv environ "SUPABASE_URL"))
    (default "" (getenv environ "SUPABASE_KEY")) = Ok c →
  connect environ w = (say SupabaseReady w, Ok (Some c)).
Proof.
  intros Hset Hc. unfold connect. rewrite Hset. io_simpl. by rewrite Hc.
Qed.

(** X21. The only exception that can leave [scrape_linkedin_jobs] is the
    one [create_client] raises when both variables are set: the client is
    made before the [try]; what stands between it and the [try] only builds
    constants and cannot raise, and the rest is inside the [try]. *)
Theorem only_create_client_escapes (environ : gmap string string) (w : world)
    (e : exn) :
  (scrape_linkedin_jobs environ w).2 = Raise e ↔
  unset (getenv environ "SUPABASE_URL") || unset (getenv environ "SUPABASE_KEY") = false
  ∧ create_client (default "" (getenv environ "SUPABASE_URL"))
      (default "" (getenv environ "SUPABASE_KEY")) = Raise e.
Proof.
  unfold scrape_linkedin_jobs, connect.
  destruct (unset _ || unset _); io_simpl.
  - destruct (session None _) as [w' [[]|e']]; simpl; split; (done || by intros []).
  - destruct (create_client _ _) as [c|e']; simpl.
    + destruct (session (Some c) _) as [w' [[]|e'']]; simpl;
        split; (done || by intros []).
    + split; [by intros [= ->]|by intros [_ [= ->]]].
Qed.

Lemma connect_keeps (environ : gmap string string) (w w1 : world)
    (supabase : option client) :
  connect environ w = (w1, Ok supabase) →
  files w1 = files w ∧ remote w1 = remote w.
Proof.
  unfold connect. destruct (unset _ || unset _); io_simpl.
  - by intros [= <- _].
  - destruct (create_client _ _); [|done]. by intros [= <- _].
Qed.

(** X22. In linkedin.py, when the page cannot be scraped, or the JSON file
    cannot be written, the run ends there with the error printed and no
    batch is sent to the remote store, even when a client is configured.
    No file changes, but for one case: when the write fails after [open]
    has emptied the file, the file has lost what it held. *)
Theorem failed_session_inserts_nothing (environ : gmap string string)
    (w w1 : world) (supabase : option client) :
  connect environ w = (w1, Ok supabase) →
  files w1 = files w ∧ remote w1 = remote w
  ∧ (∀ e, browse search_url = Raise e →
       scrape_linkedin_jobs environ w = (say (ScrapeError e) w1, Ok ()))
  ∧ (∀ job_items, browse search_url = Ok job_items →
       fs_writable output_file = false →
       ∃ w', scrape_linkedin_jobs environ w = (w', Ok ())
             ∧ remote w' = remote w
             ∧ (∀ other, other ≠ output_file → files w' !! other = files w !! other)
             ∧ ∀ e,
                 (fs_failure output_file = AtOpen e →
                    w' = say (ScrapeError e) w1)
                 ∧ (fs_failure output_file = AfterOpen e →
                      w' = say (ScrapeError e) (tear_file output_file w1)
                      ∧ files w' !! output_file = None
                      ∧ output_file ∈ torn w')).
Proof.
  intros Hconnect. destruct (connect_keeps _ _ _ _ Hconnect) as [Hfiles Hremote].
  split_and!; [done..| |].
  - intros e Hb. unfold scrape_linkedin_jobs. io_simpl. rewrite Hconnect.
    unfold session. io_simpl. by rewrite Hb.
  - intros job_items Hb Hw. unfold scrape_linkedin_jobs. io_simpl. rewrite Hconnect.
    unfold session. io_simpl. rewrite Hb. unfold dump_json. rewrite Hw.
    destruct (fs_failure output_file) as [e'|e']; eexists;
      (split; [reflexivity|]); simpl; (split; [done|]).
    + split; [by intros other Hother; rewrite Hfiles|].
      intros e. split; [|done]. by intros [= ->].
    + split; [by intros other Hother; rewrite lookup_delete_ne, Hfiles|].
      intros e. split; [done|]. intros [= ->].
      split; [done|]. split; [apply lookup_delete_eq|].
      apply elem_of_union_l, elem_of_singleton. done.
Qed.

(** X23. In linkedin.py, with both variables set and a client made, a page
    that is scraped and a file that is written are followed by the
    insertion: the file holds the scraped listings, and these are sent to
    the remote store in batches of 50, in their order; the run returns
    whether or not closing the browser raises. *)
Theorem configured_run_writes_then_inserts (environ : gmap string string)
    (c : client) (job_items : list job_item) (w : world) :
  unset (getenv environ "SUPABASE_URL") || unset (getenv environ "SUPABASE_KEY") = false →
  create_client (default "" (getenv environ "SUPABASE_URL"))
    (default "" (getenv environ "SUPABASE_KEY")) = Ok c →
  browse search_url = Ok job_items →
  fs_writable output_file = true →
  let scraped := scrape_items job_items in
  ∃ w', scrape_linkedin_jobs environ w = (w', Ok ())
        ∧ files w' = <[output_file := json_output scraped]> (files w)
        ∧ remote w' = remote_after c (remote w) (batches 50 scraped)
        ∧ concat (batches 50 scraped) = scraped.
Proof.
  intros Hset Hc Hb Hw scraped.
  unfold scrape_linkedin_jobs. io_simpl. rewrite (connect_set _ c) by done.
  unfold session. io_simpl. rewrite Hb. unfold dump_json. rewrite Hw.
  unfold insert_to_supabase. io_simpl. fold scraped.
  set (w1 := say (SavedTo output_file (length scraped))
               (write_file output_file (json_output scraped) (say SupabaseReady w))).
  assert (files (insert_with 50 c scraped w1)
          = <[output_file := json_output scraped]> (files w)) as Hfiles.
  { by rewrite insert_with_files. }
  assert (remote (insert_with 50 c scraped w1)
          = remote_after c (remote w) (batches 50 scraped)) as Hremote.
  { unfold insert_with.
    destruct (insert_batches_spec c 50 scraped w1 ltac:(lia)) as (w2 & -> & Hr & _).
    unfold report. by destruct (Nat.ltb _ _). }
  destruct driver_quit as [[]|e]; eexists; (split; [reflexivity|]);
    (split; [exact Hfiles|]); (split; [exact Hremote|]); apply batches_concat; lia.
Qed.

End LinkedinRun.

(** ** The further statements at concrete inputs *)

Section FurtherConcrete.
#[local] Existing Instance ascii_runtime.
#[local] Existing Instance Demo.quiet.

Lemma failed_query_keeps_jobs_witness :
  let self := Cases.scraper_with (OUT := Demo.quiet) ("url", "key") in
  let jobs := [Demo.titled (PyStr "Data Intern") (PyStr "Acme")] in
  jsearch_request self "data internships" = Raise (OtherError "offline")
  ∧ Scraper.fetch_jsearch_query self jobs "data internships" = jobs.
Proof.
  intros self jobs. split; [reflexivity|].
  apply (proj1 (failed_query_keeps_jobs self jobs "data internships")
           (OtherError "offline")).
  reflexivity.
Defined.

Lemma successful_query_appends_witness :
  let self := Cases.scraper_with (OUT := Demo.remote_down) ("url", "key") in
  let answer := {| status_code := 200%Z;
                   json := Ok (PyDict (<["data" := PyList [Demo.full_record]]> ∅)) |} in
  jsearch_request (OUT := Demo.remote_down) self "data internships" = Ok answer
  ∧ status_code answer = 200%Z
  ∧ Scraper.fetch_jsearch_query (OUT := Demo.remote_down) self [] "data internships"
    = omap Scraper.parse_jsearch_job [Demo.full_record].
Proof.
  intros self answer. split; [reflexivity|]. split; [reflexivity|].
  apply (proj1 (successful_query_appends (OUT := Demo.remote_down) self []
                  "data internships" answer _ eq_refl eq_refl eq_refl)
           [Demo.full_record]).
  reflexivity.
Defined.

Lemma active_jobs_db_data_or_jobs_witness :
  let self := Cases.scraper_with (OUT := Demo.remote_down) ("url", "key") in
  let answer := {| status_code := 200%Z;
                   json := Ok (PyDict (<["data" := PyList [Demo.full_record]]> ∅)) |} in
  active_jobs_db_request (OUT := Demo.remote_down) self = Ok answer
  ∧ Scraper.fetch_active_jobs_db (OUT := Demo.remote_down) self
    = omap Scraper.parse_active_jobs_db_job [Demo.full_record].
Proof.
  intros self answer. split; [reflexivity|].
  destruct (active_jobs_db_data_or_jobs (OUT := Demo.remote_down) self)
    as (_ & _ & Hok).
  apply (proj1 (Hok answer _ eq_refl eq_refl eq_refl) [Demo.full_record]);
    [reflexivity|discriminate].
Defined.

Lemma jsearch_record_without_markup_witness :
  truthy (default PyNone (Cases.full_fields !! "job_description")) = false
  ∧ ∃ job, Scraper.parse_jsearch_job (PyDict Cases.full_fields) = Some job
           ∧ job !! "title" = Some (PyStr "Data Intern")
           ∧ job !! "description" = Some PyNone.
Proof.
  split; [reflexivity|].
  destruct (jsearch_record_without_markup Cases.full_fields)
    as (location & _ & Hparse); [left; reflexivity|].
  eexists. split; [exact Hparse|]. split; reflexivity.
Defined.

Lemma active_jobs_db_first_candidate_witness :
  ∃ job, Scraper.parse_active_jobs_db_job (PyDict Cases.full_fields) = Some job
         ∧ ∃ v, job !! "title" = Some v
                ∧ chosen_from Cases.full_fields ["title"; "job_title"; "name"] v.
Proof.
  destruct (Scraper.parse_active_jobs_db_job (PyDict Cases.full_fields))
    as [job|] eqn:Hparse; [|discriminate Hparse].
  exists job. split; [reflexivity|].
  apply (active_jobs_db_first_candidate Cases.full_fields job "title" _ Hparse).
  refine (bool_decide_unpack _ _). vm_compute. exact I.
Defined.

Lemma remove_duplicates_returns_iff_witness :
  let jobs := [Demo.titled (PyStr "Data Intern") (PyStr "Acme")] in
  Forall keyed jobs ∧ ∃ out, Scraper.remove_duplicates jobs = Ok out.
Proof.
  intros jobs.
  assert (Forall keyed jobs) as Hk.
  { constructor; [|constructor]. split; vm_compute; exact I. }
  split; [exact Hk|].
  apply (proj1 (remove_duplicates_returns_iff jobs) Hk).
Defined.

Lemma deduplicated_keys_distinct_witness :
  let a := Demo.titled (PyStr "Data Intern") (PyStr "Acme") in
  let b := Demo.titled (PyStr "ML Intern") (PyStr "Acme") in
  let c := Demo.titled (PyStr "data intern") (PyStr "ACME") in
  let d := Demo.titled (PyStr "") (PyStr "") in
  Scraper.remove_duplicates [a; b; d; c] = Ok [a; b]
  ∧ length [a; b] ≤ length [a; b; d; c]
  ∧ ∀ job, job ∈ [a; b] → ¬ degenerate job.
Proof.
  intros a b c d.
  assert (Scraper.remove_duplicates [a; b; d; c] = Ok [a; b]) as Hrun by reflexivity.
  split; [exact Hrun|].
  destruct (deduplicated_keys_distinct [a; b; d; c] [a; b] Hrun)
    as (_ & _ & Hlen & Hdeg).
  split; [exact Hlen|]. apply Hdeg. reflexivity.
Defined.

Lemma first_listing_of_each_key_is_kept_witness :
  let a := Demo.titled (PyStr "Data Intern") (PyStr "Acme") in
  let c := Demo.titled (PyStr "data intern") (PyStr "ACME") in
  Forall keyed [a; c]
  ∧ ∃ out, Scraper.remove_duplicates [a; c] = Ok out ∧ a ∈ out.
Proof.
  intros a c.
  assert (Forall keyed [a; c]) as Hk.
  { repeat constructor; vm_compute; exact I. }
  split; [exact Hk|].
  destruct (first_listing_of_each_key_is_kept [a; c] Hk) as (out & Hout & _ & Hfirst).
  exists out. split; [exact Hout|].
  apply (Hfirst [] a [c] "data intern_acme"); [reflexivity..| |].
  - discriminate.
  - intros earlier Hin. by apply elem_of_nil in Hin.
Defined.

Lemma print_results_returns_only_if_witness :
  let jobs := [Demo.titled (PyStr "Data Intern") (PyStr "Acme")] in
  Scraper.print_results jobs = Ok ()
  ∧ Forall (λ job, printable (default (PyStr "N/A") (job !! "description")) = true)
      (take 10 jobs).
Proof.
  intros jobs.
  assert (Scraper.print_results jobs = Ok ()) as Hreturned by reflexivity.
  split; [exact Hreturned|].
  apply (proj1 (print_results_returns_only_if jobs) Hreturned).
Defined.

Lemma save_to_json_writes_or_reports_witness :
  let before := write_file (OUT := Cases.disk_full) "linkedin_jobs.json" (PyList [])
                  (Demo.blank (OUT := Cases.disk_full) []) in
  fs_writable (Outside := Cases.disk_full) "linkedin_jobs.json" = false
  ∧ files before !! "linkedin_jobs.json" = Some (PyList [])
  ∧ ∃ w', Scraper.save_to_json (OUT := Cases.disk_full) [] "linkedin_jobs.json" before
          = (w', Ok ())
          ∧ files w' !! "linkedin_jobs.json" = None
          ∧ "linkedin_jobs.json" ∈ torn w'
          ∧ console w' = [SaveError (OtherError "No space left on device")].
Proof.
  intros before. split; [reflexivity|]. split; [reflexivity|].
  destruct (save_to_json_writes_or_reports (OUT := Cases.disk_full) []
              "linkedin_jobs.json" before)
    as (w' & Hsave & _ & _ & _ & Hfailed).
  exists w'. split; [exact Hsave|].
  apply (Hfailed eq_refl (OtherError "No space left on device")). reflexivity.
Defined.

Lemma run_writes_what_it_returns_witness :
  let self := Cases.scraper_with (OUT := Demo.remote_down) ("url", "key") in
  let job := Demo.titled (PyStr "Data Intern") (PyStr "Acme") in
  ∃ w', Scraper.run_stages (OUT := Demo.remote_down) self [job; job]
          (Demo.blank (OUT := Demo.remote_down) []) = (w', Ok [job])
        ∧ Scraper.remove_duplicates [job; job] = Ok [job]
        ∧ is_Some (files w' !! "linkedin_jobs.json").
Proof.
  intros self job.
  set (r := Scraper.run_stages (OUT := Demo.remote_down) self [job; job]
              (Demo.blank (OUT := Demo.remote_down) [])).
  assert (r.2 = Ok [job]) as Hreturned by (vm_compute; reflexivity).
  assert (r = (r.1, Ok [job])) as Hrun by (rewrite <- Hreturned; apply surjective_pairing).
  exists r.1. split; [exact Hrun|].
  destruct (run_writes_what_it_returns (OUT := Demo.remote_down) self [job; job] [job]
              _ _ Hrun) as (Hdedup & Hfile & _).
  split; [exact Hdedup|].
  destruct (Hfile eq_refl) as (metadata & -> & _). by eexists.
Defined.

Lemma run_inserts_what_it_returns_witness :
  let self := Cases.scraper_with (OUT := Demo.remote_down) ("url", "key") in
  let job := Demo.titled (PyStr "Data Intern") (PyStr "Acme") in
  ∃ w', Scraper.run_stages (OUT := Demo.remote_down) self [job; job]
          (Demo.blank (OUT := Demo.remote_down) []) = (w', Ok [job])
        ∧ remote w' = [[job]].
Proof.
  intros self job.
  set (r := Scraper.run_stages (OUT := Demo.remote_down) self [job; job]
              (Demo.blank (OUT := Demo.remote_down) [])).
  assert (r.2 = Ok [job]) as Hreturned by (vm_compute; reflexivity).
  assert (r = (r.1, Ok [job])) as Hrun by (rewrite <- Hreturned; apply surjective_pairing).
  exists r.1. split; [exact Hrun|].
  destruct (run_inserts_what_it_returns (OUT := Demo.remote_down) self [job; job] [job]
              _ _ Hrun) as (-> & _).
  reflexivity.
Defined.


Lemma insert_report_witness :
  0 < 50
  ∧ console (insert_with (OUT := Demo.second_refused) 50 ("url", "key")
               (Demo.numbered 120) (Demo.blank (OUT := Demo.second_refused) []))
    = [BatchInserted 1 50; BatchFailed 2 (OtherError "refused"); BatchInserted 3 20;
       TotalInserted 70; TotalFailed 50].
Proof.
  split; [lia|].
  rewrite (insert_report (OUT := Demo.second_refused) 50 ("url", "key")
             (Demo.numbered 120) (Demo.blank (OUT := Demo.second_refused) []))
    by lia.
  vm_compute. reflexivity.
Defined.

Lemma run_returns_fetched_listings_witness :
  let self := Cases.scraper_with (OUT := Demo.remote_down) ("url", "key") in
  ∃ w' jobs, Scraper.run (OUT := Demo.remote_down) self
               (Demo.blank (OUT := Demo.remote_down) []) = (w', Ok jobs)
             ∧ length jobs = 1
             ∧ Forall complete jobs.
Proof.
  intros self.
  set (r := Scraper.run (OUT := Demo.remote_down) self
              (Demo.blank (OUT := Demo.remote_down) [])).
  set (job := Scraper.make_listing PyNone (PyStr "Data Intern") PyNone (PyStr "Acme")
                (PyStr "Paris, France") PyNone).
  assert (r.2 = Ok [job]) as Hreturned by (vm_compute; reflexivity).
  assert (r = (r.1, Ok [job])) as Hrun
    by (rewrite <- Hreturned; apply surjective_pairing).
  exists r.1, [job]. split; [exact Hrun|]. split; [reflexivity|].
  apply (run_returns_fetched_listings (OUT := Demo.remote_down) self _ _ _ Hrun).
Defined.

Lemma scrape_item_fields_witness :
  item_card Cases.first_item = Ok Cases.first_card
  ∧ Linkedin.scrape_item Cases.first_item
    = Ok (Scraper.make_listing (PyStr "-") (PyStr "Data Analyst")
            (PyStr "Job description not available in list view")
            (PyStr "-") (PyStr "-")
            (PyStr "https://www.linkedin.com/jobs/view/1")).
Proof.
  split; [reflexivity|].
  rewrite (proj2 (scrape_item_fields Cases.first_item) Cases.first_card eq_refl).
  reflexivity.
Defined.

Lemma linkedin_fields_never_empty_witness :
  let job := Scraper.make_listing (PyStr "-") (PyStr "Data Analyst")
               (PyStr "Job description not available in list view")
               (PyStr "-") (PyStr "-")
               (PyStr "https://www.linkedin.com/jobs/view/1") in
  Linkedin.scrape_item Cases.first_item = Ok job
  ∧ ∃ value, job !! "company" = Some value ∧ truthy value = true.
Proof.
  intros job.
  assert (Linkedin.scrape_item Cases.first_item = Ok job) as Hitem by reflexivity.
  split; [exact Hitem|].
  apply (linkedin_fields_never_empty Cases.first_item job "company" Hitem).
  refine (bool_decide_unpack _ _). vm_compute. exact I.
Defined.

Lemma failed_session_inserts_nothing_witness :
  let start := Demo.blank (OUT := Cases.disk_full) [] in
  Linkedin.connect (OUT := Cases.disk_full) Demo.credentials start
  = (say SupabaseReady start, Ok (Some ("https://project.supabase.co", "secret")))
  ∧ ∃ w', Linkedin.scrape_linkedin_jobs (OUT := Cases.disk_full) Demo.credentials start
          = (w', Ok ())
          ∧ remote w' = []
          ∧ Linkedin.output_file ∈ torn w'.
Proof.
  intros start.
  assert (Linkedin.connect (OUT := Cases.disk_full) Demo.credentials start
          = (say SupabaseReady start,
             Ok (Some ("https://project.supabase.co", "secret")))) as Hconnect
    by reflexivity.
  split; [exact Hconnect|].
  destruct (failed_session_inserts_nothing (OUT := Cases.disk_full) Demo.credentials
              start _ _ Hconnect) as (_ & _ & _ & Hwrite).
  destruct (Hwrite Cases.page eq_refl eq_refl) as (w' & Hrun & Hremote & _ & Hfailed).
  exists w'. split; [exact Hrun|]. split; [exact Hremote|].
  apply (Hfailed (OtherError "No space left on device")). reflexivity.
Defined.

(** The two other ways the session of linkedin.py stops short: no browser,
    and an output file that cannot be opened. *)
Example session_without_browser :
  let start := Demo.blank (OUT := Cases.no_browser) [] in
  Linkedin.scrape_linkedin_jobs (OUT := Cases.no_browser) ∅ start
  = (say (ScrapeError (OtherError "no browser")) (say NoSupabaseWarning start), Ok ()).
Proof. reflexivity. Qed.

Example session_with_read_only_file :
  let start := Demo.blank (OUT := Cases.linkedin_read_only) [] in
  Linkedin.scrape_linkedin_jobs (OUT := Cases.linkedin_read_only) Demo.credentials start
  = (say (ScrapeError OSError) (say SupabaseReady start), Ok ()).
Proof. reflexivity. Qed.

Lemma configured_run_writes_then_inserts_witness :
  let start := Demo.blank (OUT := Cases.linkedin) [] in
  unset (getenv Demo.credentials "SUPABASE_URL")
  || unset (getenv Demo.credentials "SUPABASE_KEY") = false
  ∧ ∃ w', Linkedin.scrape_linkedin_jobs (OUT := Cases.linkedin) Demo.credentials start
          = (w', Ok ())
          ∧ is_Some (files w' !! Linkedin.output_file)
          ∧ length <$> remote w' = [1].
Proof.
  intros start.
  assert (unset (getenv Demo.credentials "SUPABASE_URL")
          || unset (getenv Demo.credentials "SUPABASE_KEY") = false) as Hset
    by reflexivity.
  split; [exact Hset|].
  destruct (configured_run_writes_then_inserts (OUT := Cases.linkedin)
              Demo.credentials ("https://project.supabase.co", "secret")
              Cases.page start Hset ltac:(reflexivity) ltac:(reflexivity)
              ltac:(reflexivity))
    as (w' & Hrun & Hfiles & Hremote & _).
  exists w'. split; [exact Hrun|]. rewrite Hfiles, Hremote.
  split; [by rewrite lookup_insert_eq|]. vm_compute. reflexivity.
Defined.

End FurtherConcrete.
